(** * morphosamplers.sampler: sampling grids, pose placement and volume sampling

    A shallow embedding of [src/morphosamplers/sampler.py].

    NumPy arrays are modelled as a shape together with the row-major (C order)
    list of their elements, which is how [reshape], [stack], broadcasting,
    [swapaxes] and [.T] are defined on them.  The elements of these arrays
    are rationals, with exact arithmetic: they carry what the sampler does
    with shapes, layouts and failures, where the values of the elements play
    no part.  What the values of the grid coordinates are, in the float64
    arithmetic of the source, is settled on the binary64 model of the grid
    generator, module [F64].  Python exceptions are modelled by [None].  Of
    SciPy, a rotation is its matrix, and the spline interpolant behind
    [map_coordinates] is a parameter: only the argument checks of
    [map_coordinates] and the shape of its result are modelled. *)

From Stdlib Require Import List Arith ZArith QArith Qfield Lia Bool.
From Stdlib Require Import Floats.SpecFloat.
Import ListNotations.

(** ** A small error monad for code that may raise *)

Definition bind {A B : Type} (m : option A) (f : A -> option B) : option B :=
  match m with
  | Some a => f a
  | None => None
  end.

Notation "x <- m ;; k" := (bind m (fun x => k))
  (at level 61, m at next level, right associativity).

Definition guard (b : bool) : option unit := if b then Some tt else None.

Fixpoint mapM {A B : Type} (f : A -> option B) (l : list A) : option (list B) :=
  match l with
  | [] => Some []
  | x :: t => y <- f x ;; ys <- mapM f t ;; Some (y :: ys)
  end.

(** ** Arrays *)

Module Np.

Record ndarray : Type := mk_ndarray { shape : list nat; data : list Q }.

(** Number of elements of an array of shape [s]. *)
Definition size (s : list nat) : nat := fold_right Nat.mul 1%nat s.

Definition ndim (a : ndarray) : nat := length (shape a).

(** The representation invariant: as many elements as the shape says. *)
Definition wf (a : ndarray) : Prop := length (data a) = size (shape a).

(** Row-major offset of a multi-index, and its inverse. *)
Fixpoint ravel (s idx : list nat) : nat :=
  match s, idx with
  | _ :: s', i :: idx' => (i * size s' + ravel s' idx')%nat
  | _, _ => 0%nat
  end.

Fixpoint unravel (s : list nat) (f : nat) : list nat :=
  match s with
  | [] => []
  | _ :: s' => (f / size s')%nat :: unravel s' (f mod size s')%nat
  end.

Fixpoint in_bounds (s idx : list nat) : bool :=
  match s, idx with
  | [], [] => true
  | d :: s', i :: idx' => (i <? d)%nat && in_bounds s' idx'
  | _, _ => false
  end.

(** [a[i1, ..., ik]] with one non-negative integer per axis; an index out of
    bounds or of the wrong arity raises. *)
Definition getitem (a : ndarray) (idx : list nat) : option Q :=
  if in_bounds (shape a) idx then nth_error (data a) (ravel (shape a) idx)
  else None.

(** Element at a row-major offset (0 outside the array, never reached on a
    well-formed array). *)
Definition flat (a : ndarray) (f : nat) : Q := nth f (data a) 0.

(** An array from its shape and an element function on multi-indices. *)
Definition tabulate (s : list nat) (g : list nat -> Q) : ndarray :=
  mk_ndarray s (map (fun f => g (unravel s f)) (seq 0 (size s))).

(** *** reshape

    [a.reshape(dims)]: a negative entry is the one unknown dimension.
    NumPy (_fix_unknown_dimension) raises when there are two unknowns, when
    the known dimensions multiply to 0 or do not divide the size, and, without
    an unknown, when the sizes differ. *)
Definition known_size (dims : list Z) : nat :=
  size (map Z.to_nat (filter (fun d => 0 <=? d)%Z dims)).

Definition count_unknown (dims : list Z) : nat :=
  length (filter (fun d => d <? 0)%Z dims).

Definition reshape (a : ndarray) (dims : list Z) : option ndarray :=
  let n := length (data a) in
  let k := known_size dims in
  match count_unknown dims with
  | O => _ <- guard (n =? k)%nat ;;
         Some (mk_ndarray (map Z.to_nat dims) (data a))
  | S O => _ <- guard (negb (k =? 0)%nat && (n mod k =? 0)%nat) ;;
           Some (mk_ndarray
                   (map (fun d => if (d <? 0)%Z then (n / k)%nat else Z.to_nat d) dims)
                   (data a))
  | _ => None
  end.

(** [len(a)]: the length of the first axis; a 0-dimensional array has none. *)
Definition len (a : ndarray) : option nat := hd_error (shape a).

(** A shape as the tuple of Python ints that [reshape] receives. *)
Definition dims_of (s : list nat) : list Z := map Z.of_nat s.

(** *** squeeze: every axis of length 1 is dropped. *)
Definition not_one (d : nat) : bool := negb (d =? 1)%nat.

Definition squeeze (a : ndarray) : ndarray :=
  mk_ndarray (filter not_one (shape a)) (data a).

(** *** Axis arguments: a negative axis counts from the end. *)
Definition normalize_axis (ax : Z) (nd : nat) : option nat :=
  if ((- Z.of_nat nd <=? ax) && (ax <? Z.of_nat nd))%Z
  then Some (Z.to_nat (if (ax <? 0)%Z then ax + Z.of_nat nd else ax)%Z)
  else None.

(** The transposition of [i] and [j], and the list [l] with positions [i]
    and [j] exchanged. *)
Definition transp (i j k : nat) : nat :=
  if (k =? i)%nat then j else if (k =? j)%nat then i else k.

Definition swap_nth (i j : nat) (l : list nat) : list nat :=
  map (fun k => nth (transp i j k) l 0%nat) (seq 0 (length l)).

(** *** swapaxes and .T: same elements, permuted axes. *)
Definition swapaxes (a : ndarray) (axis1 axis2 : Z) : option ndarray :=
  i <- normalize_axis axis1 (ndim a) ;;
  j <- normalize_axis axis2 (ndim a) ;;
  Some (tabulate (swap_nth i j (shape a))
                 (fun idx => flat a (ravel (shape a) (swap_nth i j idx)))).

Definition T (a : ndarray) : ndarray :=
  tabulate (rev (shape a)) (fun idx => flat a (ravel (shape a) (rev idx))).

(** *** stack: join equally shaped arrays along a new axis.

    [np.stack] raises on an empty sequence, on arrays of different shapes and
    on an axis beyond the new number of dimensions. *)
Definition shape_eqb (s1 s2 : list nat) : bool :=
  if list_eq_dec Nat.eq_dec s1 s2 then true else false.

Definition remove_nth (axis : nat) (idx : list nat) : list nat :=
  firstn axis idx ++ skipn (S axis) idx.

Definition stack (arrays : list ndarray) (axis : nat) : option ndarray :=
  match arrays with
  | [] => None
  | a0 :: _ =>
      _ <- guard (forallb (fun a => shape_eqb (shape a) (shape a0)) arrays) ;;
      _ <- guard (axis <=? ndim a0)%nat ;;
      Some (tabulate
              (firstn axis (shape a0) ++ length arrays :: skipn axis (shape a0))
              (fun idx =>
                 let a := nth (nth axis idx 0%nat) arrays a0 in
                 flat a (ravel (shape a) (remove_nth axis idx))))
  end.

(** *** Broadcasting

    Shapes are aligned on their last axes; two lengths are compatible when
    they are equal or one of them is 1. *)
Definition broadcast_dim (d1 d2 : nat) : option nat :=
  if (d1 =? d2)%nat then Some d1
  else if (d1 =? 1)%nat then Some d2
  else if (d2 =? 1)%nat then Some d1
  else None.

Fixpoint broadcast_rev (r1 r2 : list nat) : option (list nat) :=
  match r1, r2 with
  | [], r => Some r
  | r, [] => Some r
  | d1 :: t1, d2 :: t2 =>
      d <- broadcast_dim d1 d2 ;;
      t <- broadcast_rev t1 t2 ;;
      Some (d :: t)
  end.

Definition broadcast_shapes (s1 s2 : list nat) : option (list nat) :=
  option_map (@rev nat) (broadcast_rev (rev s1) (rev s2)).

(** The index into an operand of shape [s] that an index [idx] of the
    broadcast shape reads: leading axes the operand lacks are dropped and its
    axes of length 1 are read at 0. *)
Fixpoint pin (s idx : list nat) : list nat :=
  match s, idx with
  | d :: s', i :: idx' => (if (d =? 1)%nat then 0%nat else i) :: pin s' idx'
  | _, _ => []
  end.

Definition broadcast_index (s idx : list nat) : list nat :=
  pin s (skipn (length idx - length s) idx).

Definition broadcast_to (a : ndarray) (s : list nat) : ndarray :=
  tabulate s (fun idx => flat a (ravel (shape a) (broadcast_index (shape a) idx))).

(** [a + b] on arrays. *)
Definition add (a b : ndarray) : option ndarray :=
  s <- broadcast_shapes (shape a) (shape b) ;;
  Some (tabulate s (fun idx =>
          flat a (ravel (shape a) (broadcast_index (shape a) idx))
          + flat b (ravel (shape b) (broadcast_index (shape b) idx)))).

(** [a * x] for a Python scalar [x]. *)
Definition mul_scalar (a : ndarray) (x : Q) : ndarray :=
  mk_ndarray (shape a) (map (fun v => v * x) (data a)).

(** A 0-dimensional array, which is what [np.asanyarray] makes of a number. *)
Definition scalar (x : Q) : ndarray := mk_ndarray [] [x].

(** *** linspace(start, stop, num) with endpoint=True

    In exact arithmetic; [F64.linspace] is the same computation with every
    operation rounded to float64.  [num < 0] raises.  The samples are [i * step + start] for
    [step = (stop - start) / (num - 1)], ([i / (num - 1) * (stop - start) + start]
    when the step is 0), and the last sample is overwritten with [stop]. *)
Definition set_last (l : list Q) (x : Q) : list Q :=
  match l with
  | [] => []
  | _ => removelast l ++ [x]
  end.

Definition linspace (start stop : Q) (num : Z) : option ndarray :=
  _ <- guard (0 <=? num)%Z ;;
  let n := Z.to_nat num in
  let div := (num - 1)%Z in
  let delta := stop - start in
  let y := map (fun i => inject_Z (Z.of_nat i)) (seq 0 n) in
  let y :=
    if (0 <? div)%Z then
      let step := delta / inject_Z div in
      if Qeq_bool step 0
      then map (fun v => v / inject_Z div * delta) y
      else map (fun v => v * step) y
    else map (fun v => v * delta) y in
  let y := map (fun v => v + start) y in
  let y := if (1 <? num)%Z then set_last y stop else y in
  Some (mk_ndarray [n] y).

(** *** meshgrid with indexing="ij"

    Input [i] is reshaped to [(1, ..., -1, ..., 1)] with the unknown at axis
    [i], and the reshaped inputs are broadcast against each other. *)
Definition broadcast_shapes_all (ss : list (list nat)) : option (list nat) :=
  fold_left (fun acc s => r <- acc ;; broadcast_shapes r s) ss (Some []).

Definition meshgrid_ij (xi : list ndarray) : option (list ndarray) :=
  let nd := length xi in
  output <- mapM (fun ix : nat * ndarray =>
                    reshape (snd ix)
                      (repeat 1%Z (fst ix) ++ (-1)%Z :: repeat 1%Z (nd - S (fst ix))))
                 (combine (seq 0 nd) xi) ;;
  s <- broadcast_shapes_all (map shape output) ;;
  Some (map (fun x => broadcast_to x s) output).

End Np.

(** ** scipy: rotations and spline interpolation *)

Module Scipy.
Import Np.

Definition vec3 : Type := (Q * Q * Q)%type.

(** A rotation, by the rows of its matrix (what [as_matrix] returns). *)
Record Rotation : Type := mk_Rotation { row0 : vec3; row1 : vec3; row2 : vec3 }.

Definition dot (u v : vec3) : Q :=
  let '(a, b, c) := u in
  let '(x, y, z) := v in
  a * x + b * y + c * z.

Definition apply_vec (r : Rotation) (v : vec3) : vec3 :=
  (dot (row0 r) v, dot (row1 r) v, dot (row2 r) v).

Definition vadd (u v : vec3) : vec3 :=
  let '(a, b, c) := u in
  let '(x, y, z) := v in
  (a + x, b + y, c + z).

Definition identity : Rotation :=
  mk_Rotation (1, 0, 0) (0, 1, 0) (0, 0, 1).

(** The rows of a flat [(P, 3)] buffer, rotated one by one. *)
Fixpoint apply_rows (r : Rotation) (l : list Q) : list Q :=
  match l with
  | x :: y :: z :: t =>
      let '(a, b, c) := apply_vec r (x, y, z) in
      a :: b :: c :: apply_rows r t
  | _ => []
  end.

(** [r.apply(vectors)] for a single rotation: [vectors] must have shape
    [(3,)] or [(P, 3)], and the result has the shape of [vectors]. *)
Definition Rotation_apply (r : Rotation) (vectors : ndarray) : option ndarray :=
  _ <- guard ((1 <=? ndim vectors)%nat && (ndim vectors <=? 2)%nat
              && (last (shape vectors) 0 =? 3)%nat) ;;
  Some (mk_ndarray (shape vectors) (apply_rows r (data vectors))).

End Scipy.

Module Ndimage.
Import Np.

Section MapCoordinates.

(** The value at one point of the spline interpolant of the given order of
    an array (with the backend's default boundary mode); the sampler never
    looks inside it. *)
Variable spline_value : ndarray -> Z -> list Q -> Q.

(** [map_coordinates(input, coordinates, order=order)]: [coordinates] has
    one row per axis of [input], and the output has the shape of one row.
    An order outside 0..5, a rank 0 input or output, and a number of rows
    other than [input.ndim] raise. *)
Definition map_coordinates (input coordinates : ndarray) (order : Z)
  : option ndarray :=
  _ <- guard ((0 <=? order) && (order <=? 5))%Z ;;
  match shape coordinates with
  | [] => None
  | d :: output_shape =>
      _ <- guard ((1 <=? ndim input)%nat && (1 <=? length output_shape)%nat) ;;
      _ <- guard (d =? ndim input)%nat ;;
      let m := size output_shape in
      Some (mk_ndarray output_shape
              (map (fun j =>
                      spline_value input order
                        (map (fun k => flat coordinates (k * m + j)) (seq 0 d)))
                   (seq 0 m)))
  end.

End MapCoordinates.

End Ndimage.

(** ** The sampler *)

Import Np Scipy Ndimage.

(** One coordinate axis of the grid (the body of the loop over [dim]), in
    exact arithmetic; [F64.axis_coord] is its float64 version. *)
Definition axis_coord (ln : Z) (spacing : Q) : option ndarray :=
  if (negb (ln =? 1))%Z then
    l <- linspace (-1 # 2) (1 # 2) ln ;;
    Some (mul_scalar (mul_scalar l (inject_Z (ln - 1))) spacing)
  else Some (scalar 0).

Definition generate_3D_grid (grid_shape : Z * Z * Z) (grid_spacing : Q * Q * Q)
    (squeeze : bool) : option ndarray :=
  let '(n0, n1, n2) := grid_shape in
  let '(s0, s1, s2) := grid_spacing in
  c0 <- axis_coord n0 s0 ;;
  c1 <- axis_coord n1 s1 ;;
  c2 <- axis_coord n2 s2 ;;
  m <- meshgrid_ij [c0; c1; c2] ;;
  grid <- stack m 3 ;;
  Some (if squeeze then Np.squeeze grid else grid).

Definition generate_2D_grid (grid_shape : Z * Z) (grid_spacing : Q * Q)
  : option ndarray :=
  generate_3D_grid (fst grid_shape, snd grid_shape, 1%Z)
                   (fst grid_spacing, snd grid_spacing, 1) true.

Definition generate_1D_grid (grid_shape : Z) (grid_spacing : Q) : option ndarray :=
  generate_3D_grid (1%Z, 1%Z, grid_shape) (1, 1, grid_spacing) true.

(** The loop over the orientations: every rotation is applied to the whole
    flattened grid. *)
Definition rotate_all (grid_coords : ndarray) (orientations : list Rotation)
  : option (list ndarray) :=
  mapM (fun orientation => Rotation_apply orientation grid_coords) orientations.

Definition generate_sampling_coordinates (sampling_grid positions : ndarray)
    (orientations : list Rotation) : option ndarray :=
  let grid_shape := shape sampling_grid in
  grid_coords <- reshape sampling_grid [-1; 3]%Z ;;
  rotated <- rotate_all grid_coords orientations ;;
  stacked <- stack rotated 1 ;;
  rotated_shifted <- add stacked positions ;;
  reshape rotated_shifted ((-1)%Z :: dims_of grid_shape).

(** [batch, *grid_shape, _ = coordinates.shape] *)
Definition unpack_shape (s : list nat) : option (nat * list nat * nat) :=
  match s with
  | batch :: rest =>
      match rest with
      | [] => None
      | _ => Some (batch, removelast rest, last rest 0%nat)
      end
  | [] => None
  end.

Section Sampling.

Variable spline_value : ndarray -> Z -> list Q -> Q.

Definition sample_volume_at_coordinates (volume coordinates : ndarray)
    (interpolation_order : Z) : option ndarray :=
  u <- unpack_shape (shape coordinates) ;;
  let '(batch, grid_shape, _) := u in
  c <- reshape coordinates [-1; 3]%Z ;;
  sampled_volume <- map_coordinates spline_value volume (T c) interpolation_order ;;
  r <- reshape sampled_volume (dims_of (grid_shape ++ [batch])) ;;
  swapaxes r (-1) 0.

Definition sample_subvolumes (volume positions : ndarray)
    (orientations : list Rotation) (grid_shape : Z * Z * Z)
    (grid_spacing : Q * Q * Q) (interpolation_order : Z) : option ndarray :=
  grid <- generate_3D_grid grid_shape grid_spacing false ;;
  sampling_coords <- generate_sampling_coordinates grid positions orientations ;;
  sample_volume_at_coordinates volume sampling_coords interpolation_order.

End Sampling.

(** The point stored at a full index of the leading axes of a coordinate
    array (one whose last axis has length 3). *)
Definition point_at (a : ndarray) (idx : list nat) : option vec3 :=
  x <- getitem a (idx ++ [0%nat]) ;;
  y <- getitem a (idx ++ [1%nat]) ;;
  z <- getitem a (idx ++ [2%nat]) ;;
  Some (x, y, z).

Definition coords_of (v : vec3) : list Q :=
  let '(x, y, z) := v in [x; y; z].

(** The index that remains of [idx] once the axes of length 1 of [s] are
    squeezed away. *)
Fixpoint squeeze_index (s idx : list nat) : list nat :=
  match s, idx with
  | d :: s', i :: idx' =>
      if (d =? 1)%nat then squeeze_index s' idx' else i :: squeeze_index s' idx'
  | _, _ => []
  end.

(** Sample [i] of an axis of [n] points spaced by [spacing] and centred on
    0, in exact arithmetic: the samples start at [-(n - 1) * spacing / 2] and
    step by [spacing].  The float64 coordinates are these numbers up to
    rounding only. *)
Definition centred_sample (n : Z) (spacing : Q) (i : nat) : Q :=
  - (inject_Z (n - 1) * spacing / 2) + inject_Z (Z.of_nat i) * spacing.

(** Component [c] of a 3-vector. *)
Definition comp (c : nat) (v : vec3) : Q :=
  let '(x, y, z) := v in
  match c with
  | 0%nat => x
  | 1%nat => y
  | _ => z
  end.

(** Point [n] of a flat buffer of 3-vectors. *)
Definition row (l : list Q) (n : nat) : vec3 :=
  (nth (3 * n) l 0, nth (3 * n + 1) l 0, nth (3 * n + 2) l 0).

(** An interpolation backend to run examples with: the value at a point is
    the sum of its coordinates, so that samples tell the points apart.  The
    properties below are proved for every backend. *)
Definition coordinate_sum (v : ndarray) (order : Z) (p : list Q) : Q :=
  fold_right Qplus 0 p.

(** Concrete data used in examples. *)
Definition rot_z90 : Rotation := mk_Rotation (0, -1, 0) (1, 0, 0) (0, 0, 1).
Definition grid_two_points : ndarray := mk_ndarray [2; 3]%nat [1; 0; 0; 0; 2; 0].
Definition two_positions : ndarray := mk_ndarray [2; 3]%nat [10; 0; 0; 0; 20; 0].
Definition unit_volume : ndarray := mk_ndarray [1; 1; 1]%nat [7].
Definition flat_volume : ndarray := mk_ndarray [2; 2]%nat [7; 7; 7; 7].
Definition zero_grid_two_points : ndarray := mk_ndarray [2; 3]%nat [0; 0; 0; 0; 0; 0].
Definition one_position : ndarray := mk_ndarray [1; 3]%nat [1; 2; 3].
Definition coords_2_3_3 : ndarray :=
  mk_ndarray [2; 3; 3]%nat [0; 0; 0; 1; 0; 0; 2; 0; 0; 0; 1; 0; 1; 1; 0; 2; 1; 0].
Definition coords_2_3_4_3 : ndarray :=
  mk_ndarray [2; 3; 4; 3]%nat (repeat 0 72).
Definition coords_3_2 : ndarray := mk_ndarray [3; 2]%nat [0; 0; 1; 0; 2; 0].
Definition coords_0_2 : ndarray := mk_ndarray [0; 2]%nat [].

(** ** The spline and surface samplers

    [Spline3D] and [SplineSurfaceGrid] are classes of other modules of the
    package.  The sampler uses an object of theirs only through the calls
    below, so an object is modelled by what these calls return ([None] when a
    call raises), and the two constructors are parameters. *)

(** What a caller passes as [sampling_spacing] to the spline sampler: a
    number (the annotated type, and the default) or a pair of numbers (the
    type the docstring gives). *)
Inductive spacing_value : Type :=
| Number (x : Q)
| Pair (x y : Q).

Module Spline.

Record Spline3D : Type := mk_Spline3D {
  _get_equidistance_spline_samples : spacing_value -> option ndarray;
  _get_equidistance_orientations : spacing_value -> option (list Rotation)
}.

End Spline.

Module Surface.

Record SplineSurfaceGrid : Type := mk_SplineSurfaceGrid {
  grid_shape : Z * Z;
  sample_surface : option ndarray;
  sample_surface_orientations : option (list Rotation)
}.

End Surface.

Section Orchestration.

Variable spline_value : ndarray -> Z -> list Q -> Q.
Variable Spline3D_init : ndarray -> option Spline.Spline3D.
Variable SplineSurfaceGrid_init : ndarray -> Q -> option Surface.SplineSurfaceGrid.

(** [generate_2D_grid] builds [grid_spacing=(grid_spacing..., 1)] by
    unpacking its argument, which raises on a number. *)
Definition sample_volume_along_spline (volume : ndarray)
    (spline : ndarray + Spline.Spline3D) (sampling_shape : Z * Z)
    (sampling_spacing : spacing_value) (interpolation_order : Z)
  : option ndarray :=
  spline <- match spline with
            | inl points => Spline3D_init points
            | inr s => Some s
            end ;;
  positions <- Spline._get_equidistance_spline_samples spline sampling_spacing ;;
  orientations <- Spline._get_equidistance_orientations spline sampling_spacing ;;
  grid <- match sampling_spacing with
          | Number _ => None
          | Pair sx sy => generate_2D_grid sampling_shape (sx, sy)
          end ;;
  sampling_coords <- generate_sampling_coordinates grid positions orientations ;;
  sample_volume_at_coordinates spline_value volume sampling_coords
    interpolation_order.

Definition sample_volume_around_surface (volume : ndarray)
    (surface : ndarray + Surface.SplineSurfaceGrid) (sampling_thickness : Z)
    (sampling_spacing : Q) (interpolation_order : Z) : option ndarray :=
  surface <- match surface with
             | inl points => SplineSurfaceGrid_init points sampling_spacing
             | inr s => Some s
             end ;;
  grid <- generate_1D_grid sampling_thickness sampling_spacing ;;
  positions <- Surface.sample_surface surface ;;
  orientations <- Surface.sample_surface_orientations surface ;;
  sampling_coords <- generate_sampling_coordinates grid positions orientations ;;
  sampled <- sample_volume_at_coordinates spline_value volume sampling_coords
               interpolation_order ;;
  reshape sampled [fst (Surface.grid_shape surface);
                   snd (Surface.grid_shape surface);
                   sampling_thickness].

End Orchestration.

(** More data for examples: a surface of 1 x 2 points and a spline of two
    samples, both with identity and quarter-turn frames. *)
Definition surface_1_2 : Surface.SplineSurfaceGrid :=
  Surface.mk_SplineSurfaceGrid (1, 2)%Z (Some two_positions)
    (Some [identity; rot_z90]).
Definition spline_two_samples : Spline.Spline3D :=
  Spline.mk_Spline3D (fun _ => Some two_positions)
    (fun _ => Some [identity; rot_z90]).
Definition no_spline (points : ndarray) : option Spline.Spline3D := None.
Definition no_surface (points : ndarray) (separation : Q)
  : option Surface.SplineSurfaceGrid := None.

(** ** The grid generator in IEEE binary64

    The coordinates of a grid are float64 numbers, and their values depend on
    how each operation rounds.  This module computes them as the source does,
    operation by operation, in the binary64 format of the standard library's
    specification of floating-point arithmetic (round to nearest, ties to
    even), on arrays of floats.  Statements about coordinate values are made
    here; the rational arrays above carry shapes, layouts and failures. *)

Module F64.

Definition float : Type := spec_float.

Definition prec : Z := 53.
Definition emax : Z := 1024.

Definition add : float -> float -> float := SFadd prec emax.
Definition sub : float -> float -> float := SFsub prec emax.
Definition mul : float -> float -> float := SFmul prec emax.
Definition div : float -> float -> float := SFdiv prec emax.
Definition opp : float -> float := SFopp.
Definition eqb : float -> float -> bool := SFeqb.

(** The float of a Python int (rounded when it has more than 53 bits). *)
Definition of_Z (z : Z) : float := binary_normalize prec emax z 0 false.

Definition zero : float := S754_zero false.
Definition half : float := S754_finite false 4503599627370496 (-53).
Definition one : float := S754_finite false 4503599627370496 (-52).

Record ndarray : Type := mk_ndarray { shape : list nat; data : list float }.

Definition getitem (a : ndarray) (idx : list nat) : option float :=
  if in_bounds (shape a) idx then nth_error (data a) (ravel (shape a) idx)
  else None.

Definition flat (a : ndarray) (f : nat) : float := nth f (data a) zero.

Definition tabulate (s : list nat) (g : list nat -> float) : ndarray :=
  mk_ndarray s (map (fun f => g (unravel s f)) (seq 0 (size s))).

Definition squeeze (a : ndarray) : ndarray :=
  mk_ndarray (filter not_one (shape a)) (data a).

Definition set_last (l : list float) (x : float) : list float :=
  match l with
  | [] => []
  | _ => removelast l ++ [x]
  end.

(** [np.linspace(start, stop, num)], as a list: the steps of the array
    model above, each one rounded. *)
Definition linspace (start stop : float) (num : Z) : option (list float) :=
  _ <- guard (0 <=? num)%Z ;;
  let n := Z.to_nat num in
  let div_ := (num - 1)%Z in
  let delta := sub stop start in
  let y := map (fun i => of_Z (Z.of_nat i)) (seq 0 n) in
  let y :=
    if (0 <? div_)%Z then
      let step := div delta (of_Z div_) in
      if eqb step zero
      then map (fun v => mul (div v (of_Z div_)) delta) y
      else map (fun v => mul v step) y
    else map (fun v => mul v delta) y in
  let y := map (fun v => add v start) y in
  let y := if (1 <? num)%Z then set_last y stop else y in
  Some y.

(** One coordinate axis: [np.linspace(-0.5, 0.5, ln) * (ln - 1) * spacing],
    or the number 0 when [ln == 1]. *)
Definition axis_coord (ln : Z) (spacing : float) : option (list float) :=
  if (negb (ln =? 1))%Z then
    l <- linspace (opp half) half ln ;;
    Some (map (fun v => mul (mul v (of_Z (ln - 1))) spacing) l)
  else Some [zero].

(** [np.meshgrid(c0, c1, c2, indexing="ij")] by its index law: array [k]
    holds [ck[ik]] at [(i0, i1, i2)]. *)
Definition meshgrid_ij (c0 c1 c2 : list float) : list ndarray :=
  let s := [length c0; length c1; length c2] in
  [tabulate s (fun idx => nth (nth 0 idx 0%nat) c0 zero);
   tabulate s (fun idx => nth (nth 1 idx 0%nat) c1 zero);
   tabulate s (fun idx => nth (nth 2 idx 0%nat) c2 zero)].

(** [np.stack(arrays, axis=3)] of three arrays of shape [s] (of three axes)
    by its index law: entry [(i0, i1, i2, k)] is entry [(i0, i1, i2)] of
    array [k]. *)
Definition stack_3 (arrays : list ndarray) (s : list nat) : ndarray :=
  tabulate (s ++ [length arrays])
    (fun idx => flat (nth (nth 3 idx 0%nat) arrays (mk_ndarray [] []))
                     (ravel s (firstn 3 idx))).

Definition generate_3D_grid (grid_shape : Z * Z * Z)
    (grid_spacing : float * float * float) (squeeze_ : bool) : option ndarray :=
  let '(n0, n1, n2) := grid_shape in
  let '(s0, s1, s2) := grid_spacing in
  c0 <- axis_coord n0 s0 ;;
  c1 <- axis_coord n1 s1 ;;
  c2 <- axis_coord n2 s2 ;;
  let grid :=
    stack_3 (meshgrid_ij c0 c1 c2) [length c0; length c1; length c2] in
  Some (if squeeze_ then squeeze grid else grid).

(** Zeros and finite numbers, as opposed to infinities and NaN. *)
Definition is_finite (x : float) : Prop :=
  match x with
  | S754_zero _ | S754_finite _ _ _ => True
  | _ => False
  end.

(** The end of a centred axis of [n] points: [(0.5 * (n - 1)) * spacing]. *)
Definition half_span (n : Z) (spacing : float) : float :=
  mul (mul half (of_Z (n - 1))) spacing.

End F64.

(** * Properties *)

(** ** Row-major indexing *)

Lemma size_app (s1 s2 : list nat) : size (s1 ++ s2) = (size s1 * size s2)%nat.
Proof.
  induction s1 as [|d s1 IH]; simpl.
  - lia.
  - rewrite IH. lia.
Qed.

Lemma in_bounds_length (s idx : list nat) :
  in_bounds s idx = true -> length idx = length s.
Proof.
  revert idx; induction s as [|d s IH]; intros [|i idx] H; simpl in *;
    try discriminate; auto.
  apply andb_true_iff in H. destruct H as [_ H]. f_equal. auto.
Qed.

Lemma ravel_lt (s idx : list nat) :
  in_bounds s idx = true -> (ravel s idx < size s)%nat.
Proof.
  revert idx; induction s as [|d s IH]; intros [|i idx] H; simpl in *;
    try discriminate; try lia.
  apply andb_true_iff in H. destruct H as [Hi H].
  apply Nat.ltb_lt in Hi. specialize (IH _ H). nia.
Qed.

Lemma unravel_ravel (s idx : list nat) :
  in_bounds s idx = true -> unravel s (ravel s idx) = idx.
Proof.
  revert idx; induction s as [|d s IH]; intros [|i idx] H; simpl in *;
    try discriminate; auto.
  apply andb_true_iff in H. destruct H as [Hi H].
  pose proof (ravel_lt _ _ H) as Hlt.
  rewrite Nat.div_add_l by lia.
  rewrite (Nat.div_small (ravel s idx)) by lia.
  rewrite (Nat.add_comm (i * size s)), Nat.Div0.mod_add, Nat.mod_small by lia.
  rewrite IH by assumption. f_equal. lia.
Qed.

Lemma in_bounds_unravel (s : list nat) (f : nat) :
  (f < size s)%nat -> in_bounds s (unravel s f) = true.
Proof.
  revert f; induction s as [|d s IH]; intros f H; simpl in *; auto.
  assert (size s <> 0)%nat by nia.
  apply andb_true_iff; split.
  - apply Nat.ltb_lt. apply Nat.Div0.div_lt_upper_bound. lia.
  - apply IH. apply Nat.mod_upper_bound. assumption.
Qed.

Lemma ravel_unravel (s : list nat) (f : nat) :
  (f < size s)%nat -> ravel s (unravel s f) = f.
Proof.
  revert f; induction s as [|d s IH]; intros f H; simpl in *.
  - lia.
  - assert (size s <> 0)%nat by nia.
    rewrite IH by (apply Nat.mod_upper_bound; assumption).
    pose proof (Nat.div_mod_eq f (size s)). lia.
Qed.

Lemma ravel_app (s1 s2 i1 i2 : list nat) :
  length i1 = length s1 ->
  ravel (s1 ++ s2) (i1 ++ i2) = (ravel s1 i1 * size s2 + ravel s2 i2)%nat.
Proof.
  revert i1; induction s1 as [|d s1 IH]; intros [|i i1] H; simpl in *;
    try discriminate; auto.
  rewrite IH by lia. rewrite size_app. lia.
Qed.

Lemma in_bounds_app (s1 s2 i1 i2 : list nat) :
  length i1 = length s1 ->
  in_bounds (s1 ++ s2) (i1 ++ i2) = in_bounds s1 i1 && in_bounds s2 i2.
Proof.
  revert i1; induction s1 as [|d s1 IH]; intros [|i i1] H; simpl in *;
    try discriminate; auto.
  rewrite IH by lia. now rewrite andb_assoc.
Qed.

(** Bounds of a literal index in a literal shape, by arithmetic. *)
Ltac in_bounds_lia :=
  cbn [in_bounds]; rewrite ?andb_true_iff, ?Nat.ltb_lt; lia.

(** ** Arrays given by an element function *)

Lemma wf_tabulate (s : list nat) (g : list nat -> Q) : wf (tabulate s g).
Proof. unfold wf, tabulate; simpl. now rewrite length_map, length_seq. Qed.

Lemma nth_map_seq (A : Type) (h : nat -> A) (n f : nat) (d : A) :
  (f < n)%nat -> nth f (map h (seq 0 n)) d = h f.
Proof.
  intros H.
  rewrite (nth_indep _ d (h 0%nat)) by (now rewrite length_map, length_seq).
  rewrite (map_nth h), seq_nth by assumption. reflexivity.
Qed.

Lemma length_tabulate (s : list nat) (g : list nat -> Q) :
  length (data (tabulate s g)) = size s.
Proof. apply wf_tabulate. Qed.

Lemma flat_tabulate (s : list nat) (g : list nat -> Q) (f : nat) :
  (f < size s)%nat -> flat (tabulate s g) f = g (unravel s f).
Proof.
  intros H. unfold flat, tabulate; simpl.
  now rewrite nth_map_seq.
Qed.

Lemma flat_tabulate_ravel (s : list nat) (g : list nat -> Q) (idx : list nat) :
  in_bounds s idx = true -> flat (tabulate s g) (ravel s idx) = g idx.
Proof.
  intros H. rewrite flat_tabulate by (now apply ravel_lt).
  now rewrite unravel_ravel.
Qed.

Lemma getitem_flat (a : ndarray) (idx : list nat) :
  wf a -> in_bounds (shape a) idx = true ->
  getitem a idx = Some (flat a (ravel (shape a) idx)).
Proof.
  intros Hwf H. unfold getitem, flat. rewrite H.
  apply nth_error_nth'. rewrite Hwf. now apply ravel_lt.
Qed.

Lemma getitem_tabulate (s : list nat) (g : list nat -> Q) (idx : list nat) :
  in_bounds s idx = true -> getitem (tabulate s g) idx = Some (g idx).
Proof.
  intros H. rewrite getitem_flat; [|apply wf_tabulate|exact H].
  simpl. now rewrite flat_tabulate_ravel.
Qed.

(** ** reshape *)

Lemma filter_nonneg_dims_of (s : list nat) :
  filter (fun d => (0 <=? d)%Z) (dims_of s) = dims_of s.
Proof.
  induction s as [|d s IH]; simpl; auto.
  replace (0 <=? Z.of_nat d)%Z with true by (symmetry; apply Z.leb_le; lia).
  now rewrite IH.
Qed.

Lemma filter_neg_dims_of (s : list nat) :
  filter (fun d => (d <? 0)%Z) (dims_of s) = [].
Proof.
  induction s as [|d s IH]; simpl; auto.
  replace (Z.of_nat d <? 0)%Z with false by (symmetry; apply Z.ltb_ge; lia).
  exact IH.
Qed.

Lemma to_nat_dims_of (s : list nat) : map Z.to_nat (dims_of s) = s.
Proof.
  induction s as [|d s IH]; simpl; auto.
  now rewrite Nat2Z.id, IH.
Qed.

Lemma known_size_dims_of (s : list nat) : known_size (dims_of s) = size s.
Proof.
  unfold known_size. now rewrite filter_nonneg_dims_of, to_nat_dims_of.
Qed.

Lemma reshape_exact (a : ndarray) (s : list nat) :
  reshape a (dims_of s) =
  if (length (data a) =? size s)%nat then Some (mk_ndarray s (data a)) else None.
Proof.
  unfold reshape, count_unknown.
  rewrite filter_neg_dims_of, known_size_dims_of, to_nat_dims_of; simpl.
  destruct (length (data a) =? size s)%nat; reflexivity.
Qed.

Lemma reshape_infer_first (a : ndarray) (s : list nat) :
  reshape a ((-1)%Z :: dims_of s) =
  if negb (size s =? 0)%nat && (length (data a) mod size s =? 0)%nat
  then Some (mk_ndarray ((length (data a) / size s)%nat :: s) (data a))
  else None.
Proof.
  unfold reshape, count_unknown, known_size; simpl.
  rewrite filter_neg_dims_of, filter_nonneg_dims_of, to_nat_dims_of; simpl.
  destruct (negb (size s =? 0)%nat && (length (data a) mod size s =? 0)%nat);
    simpl; auto.
  assert (E : forall k l, map (fun d => if (d <? 0)%Z then k else Z.to_nat d)
                         (dims_of l) = l).
  { intros k l; induction l as [|d l IH]; simpl; auto.
    replace (Z.of_nat d <? 0)%Z with false by (symmetry; apply Z.ltb_ge; lia).
    now rewrite Nat2Z.id, IH. }
  now rewrite E.
Qed.

(** ** Rotating the rows of a coordinate buffer *)

Lemma length_apply_rows (r : Rotation) (n : nat) (l : list Q) :
  length l = (3 * n)%nat -> length (apply_rows r l) = (3 * n)%nat.
Proof.
  revert l; induction n as [|n IH]; intros l H.
  - destruct l; [reflexivity|discriminate].
  - destruct l as [|x [|y [|z t]]]; simpl in H; try lia.
    simpl. rewrite (IH t) by lia. lia.
Qed.

Lemma nth_apply_rows (r : Rotation) (n c : nat) (l : list Q) :
  (3 * n + 2 < length l)%nat -> (c < 3)%nat ->
  nth (3 * n + c) (apply_rows r l) 0 = comp c (apply_vec r (row l n)).
Proof.
  revert l; induction n as [|n IH]; intros l H Hc.
  - destruct l as [|x [|y [|z t]]]; simpl in H; try lia.
    destruct c as [|[|[|c]]]; try lia; reflexivity.
  - destruct l as [|x [|y [|z t]]]; simpl in H; try lia.
    replace (3 * S n + c)%nat with (S (S (S (3 * n + c)))) by lia.
    cbn [apply_rows apply_vec nth].
    rewrite IH by (simpl; lia || lia).
    unfold row.
    replace (3 * S n)%nat with (S (S (S (3 * n)))) by lia.
    replace (S (S (S (3 * n))) + 1)%nat with (S (S (S (3 * n + 1)))) by lia.
    replace (S (S (S (3 * n))) + 2)%nat with (S (S (S (3 * n + 2)))) by lia.
    reflexivity.
Qed.

Lemma rotate_all_eq (s : list nat) (d : list Q) (orientations : list Rotation) :
  (1 <=? length s)%nat && (length s <=? 2)%nat && (last s 0 =? 3)%nat = true ->
  rotate_all (mk_ndarray s d) orientations =
  Some (map (fun r => mk_ndarray s (apply_rows r d)) orientations).
Proof.
  intros H. unfold rotate_all.
  induction orientations as [|r rs IH]; simpl; auto.
  unfold Rotation_apply at 1. unfold ndim; simpl shape. rewrite H. simpl.
  rewrite IH. reflexivity.
Qed.

Lemma forallb_shape_eqb_map (A : Type) (F : A -> ndarray) (s : list nat) (l : list A) :
  (forall x, shape (F x) = s) ->
  forallb (fun a => shape_eqb (shape a) s) (map F l) = true.
Proof.
  intros H. induction l as [|x l IH]; simpl; auto.
  rewrite IH, H. unfold shape_eqb.
  destruct (list_eq_dec Nat.eq_dec s s); [reflexivity|contradiction].
Qed.

(** ** Broadcasting a pair of lengths *)

Lemma broadcast_dim_Some (d1 d2 d : nat) :
  broadcast_dim d1 d2 = Some d <->
  (d1 = d2 /\ d = d1) \/ (d1 = 1%nat /\ d = d2) \/ (d2 = 1%nat /\ d = d1).
Proof.
  unfold broadcast_dim.
  destruct (Nat.eqb_spec d1 d2); [|destruct (Nat.eqb_spec d1 1);
    [|destruct (Nat.eqb_spec d2 1)]]; split; intros H;
    try (injection H as <-); try discriminate; try lia;
    try (f_equal; lia).
Qed.

Lemma broadcast_dim_None (d1 d2 : nat) :
  broadcast_dim d1 d2 = None <-> d1 <> d2 /\ d1 <> 1%nat /\ d2 <> 1%nat.
Proof.
  unfold broadcast_dim.
  destruct (Nat.eqb_spec d1 d2); [|destruct (Nat.eqb_spec d1 1);
    [|destruct (Nat.eqb_spec d2 1)]]; split; intros H;
    try discriminate; try lia; auto.
Qed.

Lemma comp_vadd (c : nat) (u v : vec3) :
  comp c (vadd u v) = comp c u + comp c v.
Proof.
  destruct u as [[a b] e], v as [[x y] z]. destruct c as [|[|c]]; reflexivity.
Qed.

Lemma broadcast_shapes_3_2 (N B P : nat) :
  broadcast_shapes [N; B; 3%nat] [P; 3%nat] =
  option_map (fun d => [N; d; 3%nat]) (broadcast_dim B P).
Proof.
  unfold broadcast_shapes. cbn [rev app broadcast_rev].
  change (broadcast_dim 3 3) with (Some 3%nat). cbn [bind].
  destruct (broadcast_dim B P); reflexivity.
Qed.

(** ** stack on arrays of one shape *)

Lemma stack_map (A : Type) (F : A -> ndarray) (s : list nat) (x0 : A)
    (l : list A) (axis : nat) :
  (forall x, shape (F x) = s) -> (axis <= length s)%nat ->
  stack (map F (x0 :: l)) axis =
  Some (tabulate (firstn axis s ++ S (length l) :: skipn axis s)
          (fun idx => flat (F (nth (nth axis idx 0%nat) (x0 :: l) x0))
                           (ravel s (remove_nth axis idx)))).
Proof.
  intros Hs Hax. unfold stack. cbn [map].
  change (F x0 :: map F l) with (map F (x0 :: l)).
  rewrite (Hs x0), forallb_shape_eqb_map by assumption.
  unfold ndim. rewrite (Hs x0).
  replace (axis <=? length s)%nat with true by (symmetry; now apply Nat.leb_le).
  cbn [guard bind]. rewrite length_map. cbn [length].
  unfold tabulate. do 2 f_equal.
  apply map_ext. intros f.
  rewrite (map_nth F). now rewrite Hs.
Qed.

(** ** The pose stage *)

Section Placement.

Variables (sampling_grid positions : ndarray) (orientations : list Rotation).
Variables (G : list nat) (P : nat).
Hypothesis grid_wf : wf sampling_grid.
Hypothesis grid_shape : shape sampling_grid = G ++ [3%nat].
Hypothesis positions_shape : shape positions = [P; 3%nat].

Lemma grid_length : length (data sampling_grid) = (size G * 3)%nat.
Proof.
  unfold wf in grid_wf. rewrite grid_wf, grid_shape, size_app. reflexivity.
Qed.

Lemma grid_coords_eq :
  reshape sampling_grid [-1; 3]%Z =
  Some (mk_ndarray [size G; 3%nat] (data sampling_grid)).
Proof.
  change [-1; 3]%Z with ((-1)%Z :: dims_of [3%nat]).
  rewrite reshape_infer_first, grid_length.
  change (size [3%nat]) with 3%nat.
  rewrite Nat.Div0.mod_mul, Nat.div_mul by lia. reflexivity.
Qed.

(** Up to the addition of the positions nothing can fail but [np.stack] on
    an empty list; with it, the whole function is determined by how the
    number of orientations broadcasts against the number of positions. *)
Lemma placement_fails :
  orientations = [] \/
  broadcast_dim (length orientations) P = None \/
  size G = 0%nat ->
  generate_sampling_coordinates sampling_grid positions orientations = None.
Proof.
  intros H. unfold generate_sampling_coordinates.
  rewrite grid_coords_eq. cbn [bind].
  rewrite rotate_all_eq by reflexivity. cbn [bind].
  destruct orientations as [|r0 rs] eqn:E.
  { reflexivity. }
  rewrite (stack_map _ (fun r => mk_ndarray [size G; 3%nat]
                                 (apply_rows r (data sampling_grid)))
             [size G; 3%nat]) by (auto; simpl; lia).
  cbn [bind]. unfold add. cbn [shape tabulate firstn skipn app].
  rewrite positions_shape, broadcast_shapes_3_2.
  destruct H as [H|[H|H]]; [discriminate| |].
  - cbn [length] in H. rewrite H. reflexivity.
  - destruct (broadcast_dim (S (length rs)) P); [|reflexivity].
    cbn [option_map bind]. rewrite reshape_infer_first, grid_shape, size_app, H.
    reflexivity.
Qed.

Lemma placement_returns (d : nat) :
  orientations <> [] ->
  broadcast_dim (length orientations) P = Some d ->
  size G <> 0%nat ->
  exists r,
    generate_sampling_coordinates sampling_grid positions orientations = Some r
    /\ shape r = d :: G ++ [3%nat]
    /\ wf r
    /\ forall n b c, (n < size G)%nat -> (b < d)%nat -> (c < 3)%nat ->
         flat r ((n * d + b) * 3 + c) =
         comp c (vadd
                   (apply_vec
                      (nth (if (length orientations =? 1)%nat then 0%nat else b)
                           orientations identity)
                      (row (data sampling_grid) n))
                   (row (data positions) (if (P =? 1)%nat then 0%nat else b))).
Proof.
  intros Hne Hd HN. unfold generate_sampling_coordinates.
  rewrite grid_coords_eq. cbn [bind].
  rewrite rotate_all_eq by reflexivity. cbn [bind].
  destruct orientations as [|r0 rs] eqn:E; [contradiction|].
  rewrite (stack_map _ (fun r => mk_ndarray [size G; 3%nat]
                                 (apply_rows r (data sampling_grid)))
             [size G; 3%nat]) by (auto; simpl; lia).
  cbn [bind]. unfold add. cbn [shape tabulate firstn skipn app].
  pose proof Hd as Hd'. cbn [length] in Hd'.
  rewrite positions_shape, broadcast_shapes_3_2, Hd'.
  cbn [option_map bind].
  rewrite reshape_infer_first, grid_shape, size_app.
  rewrite length_tabulate.
  change (size [3%nat]) with 3%nat.
  change (size [size G; d; 3%nat]) with (size G * (d * 3))%nat.
  replace (size G * (d * 3))%nat with (d * (size G * 3))%nat by lia.
  rewrite Nat.Div0.mod_mul, Nat.div_mul by lia.
  replace (size G * 3 =? 0)%nat with false by (symmetry; apply Nat.eqb_neq; lia).
  cbn [negb andb Nat.eqb].
  eexists; split; [reflexivity|].
  split; [reflexivity|]. split.
  { unfold wf. cbn [data shape]. rewrite length_tabulate.
    cbn [size fold_right]. fold (size (G ++ [3%nat])). rewrite size_app.
    change (size [3%nat]) with 3%nat. lia. }
  intros n b c Hn Hb Hc.
  set (b1 := if (length (r0 :: rs) =? 1)%nat then 0%nat else b).
  set (b2 := if (P =? 1)%nat then 0%nat else b).
  assert (Hb1 : (b1 < length (r0 :: rs))%nat).
  { subst b1. apply broadcast_dim_Some in Hd.
    destruct (Nat.eqb_spec (length (r0 :: rs)) 1); lia. }
  replace ((n * d + b) * 3 + c)%nat with (ravel [size G; d; 3%nat] [n; b; c])
    by (simpl; lia).
  unfold flat at 1. cbn [data].
  match goal with
  | |- nth ?f (data ?t) 0 = _ => change (nth f (data t) 0) with (flat t f)
  end.
  rewrite flat_tabulate_ravel
    by in_bounds_lia.
  assert (Hpin : broadcast_index [size G; S (length rs); 3%nat] [n; b; c]
                 = [n; b1; c]).
  { unfold broadcast_index. cbn [length Nat.sub skipn pin Nat.eqb].
    subst b1. cbn [length].
    destruct (Nat.eqb_spec (size G) 1); [|reflexivity].
    replace n with 0%nat by lia. reflexivity. }
  rewrite Hpin.
  rewrite flat_tabulate_ravel
    by (cbn [in_bounds]; cbn [length] in Hb1;
        rewrite !andb_true_iff, !Nat.ltb_lt; lia).
  cbn [nth remove_nth firstn skipn app].
  unfold flat at 1. cbn [data].
  replace (ravel [size G; 3%nat] [n; c]) with (3 * n + c)%nat by (simpl; lia).
  rewrite nth_apply_rows by (rewrite ?grid_length; lia).
  rewrite comp_vadd. f_equal.
  - f_equal. f_equal. clearbody b1. cbn [length] in Hb1.
    destruct b1 as [|m]; [reflexivity|apply nth_indep; lia].
  - unfold broadcast_index. cbn [length Nat.sub skipn pin Nat.eqb]. fold b2.
    replace (ravel [P; 3%nat] [b2; c]) with (3 * b2 + c)%nat by (simpl; lia).
    unfold flat, row.
    destruct c as [|[|[|c]]]; try lia; cbn [comp];
      rewrite ?Nat.add_0_r; reflexivity.
Qed.

Lemma vec3_eta (v : vec3) : v = (comp 0 v, comp 1 v, comp 2 v).
Proof. destruct v as [[x y] z]. reflexivity. Qed.

(** The same, point by point: point [n * d + b] of the returned buffer is
    grid point [n] under pose [b]. *)
Lemma placement_rows (d : nat) :
  orientations <> [] ->
  broadcast_dim (length orientations) P = Some d ->
  size G <> 0%nat ->
  exists r,
    generate_sampling_coordinates sampling_grid positions orientations = Some r
    /\ shape r = d :: G ++ [3%nat]
    /\ wf r
    /\ forall n b, (n < size G)%nat -> (b < d)%nat ->
         row (data r) (n * d + b) =
         vadd (apply_vec
                 (nth (if (length orientations =? 1)%nat then 0%nat else b)
                      orientations identity)
                 (row (data sampling_grid) n))
              (row (data positions) (if (P =? 1)%nat then 0%nat else b)).
Proof.
  intros Hne Hd HN.
  destruct (placement_returns d Hne Hd HN) as (r & Hr & Hs & Hwf & Hflat).
  exists r. repeat split; auto.
  intros n b Hn Hb.
  rewrite (vec3_eta (vadd _ _)).
  rewrite <- !(Hflat n b) by lia.
  unfold row, flat.
  f_equal; [f_equal|]; (apply (f_equal (fun k => nth k (data r) 0)); lia).
Qed.

(** Read through the shape the result is given, [(d, *G, 3)], batch index
    [i] and grid index [js] hold point [i * size G + ravel G js] of that
    buffer: the pose is the remainder modulo [d] and the grid point the
    quotient. *)
Lemma placement_point_at (d : nat) :
  orientations <> [] ->
  broadcast_dim (length orientations) P = Some d ->
  size G <> 0%nat ->
  exists r,
    generate_sampling_coordinates sampling_grid positions orientations = Some r
    /\ shape r = d :: G ++ [3%nat]
    /\ forall i js, (i < d)%nat -> in_bounds G js = true ->
         let m := (i * size G + ravel G js)%nat in
         let b := (m mod d)%nat in
         point_at r (i :: js) =
         Some (vadd (apply_vec
                       (nth (if (length orientations =? 1)%nat then 0%nat else b)
                            orientations identity)
                       (row (data sampling_grid) (m / d)))
                    (row (data positions) (if (P =? 1)%nat then 0%nat else b))).
Proof.
  intros Hne Hd HN.
  destruct (placement_rows d Hne Hd HN) as (r & Hr & Hs & Hwf & Hrow).
  exists r. repeat split; auto.
  intros i js Hi Hjs m b.
  pose proof (ravel_lt _ _ Hjs) as Hj.
  assert (Hm : (m < d * size G)%nat) by (subst m; nia).
  assert (Hq : (m / d < size G)%nat)
    by (apply Nat.Div0.div_lt_upper_bound; lia).
  assert (Hb : (b < d)%nat) by (apply Nat.mod_upper_bound; lia).
  rewrite <- (Hrow (m / d)%nat b) by assumption.
  replace (m / d * d + b)%nat with m
    by (subst b; pose proof (Nat.div_mod_eq m d); lia).
  assert (Hget : forall c, (c < 3)%nat ->
            getitem r ((i :: js) ++ [c]) = Some (nth (3 * m + c) (data r) 0)).
  { intros c Hc. rewrite getitem_flat; auto.
    - unfold flat. do 2 f_equal. rewrite Hs.
      change (d :: G ++ [3%nat]) with ((d :: G) ++ [3%nat]).
      rewrite ravel_app by (simpl; f_equal; now apply in_bounds_length).
      subst m. simpl. lia.
    - rewrite Hs. change (d :: G ++ [3%nat]) with ((d :: G) ++ [3%nat]).
      rewrite in_bounds_app by (simpl; f_equal; now apply in_bounds_length).
      cbn [in_bounds]. rewrite Hjs.
      rewrite !andb_true_iff, !Nat.ltb_lt. lia. }
  unfold point_at. rewrite !Hget by lia. cbn [bind].
  unfold row. rewrite Nat.add_0_r. reflexivity.
Qed.

End Placement.

(** ** Exchanging two axes *)

Lemma transp_lt (i j k n : nat) :
  (i < n)%nat -> (j < n)%nat -> (k < n)%nat -> (transp i j k < n)%nat.
Proof.
  intros; unfold transp.
  destruct (k =? i)%nat; [|destruct (k =? j)%nat]; assumption.
Qed.

Lemma transp_invol (i j k : nat) : transp i j (transp i j k) = k.
Proof.
  unfold transp.
  destruct (Nat.eqb_spec k i) as [->|Hki].
  - destruct (Nat.eqb_spec j i) as [->|Hji]; [reflexivity|].
    now rewrite Nat.eqb_refl.
  - destruct (Nat.eqb_spec k j) as [->|Hkj].
    + now rewrite Nat.eqb_refl.
    + destruct (Nat.eqb_spec k i); [contradiction|].
      destruct (Nat.eqb_spec k j); [contradiction|reflexivity].
Qed.

Lemma length_swap_nth (i j : nat) (l : list nat) :
  length (swap_nth i j l) = length l.
Proof. unfold swap_nth. now rewrite length_map, length_seq. Qed.

Lemma nth_swap_nth (i j k : nat) (l : list nat) :
  (k < length l)%nat -> nth k (swap_nth i j l) 0%nat = nth (transp i j k) l 0%nat.
Proof. intros H. unfold swap_nth. now rewrite nth_map_seq. Qed.

Lemma in_bounds_nth (s idx : list nat) :
  in_bounds s idx = true <->
  length idx = length s /\
  forall k, (k < length s)%nat -> (nth k idx 0 < nth k s 0)%nat.
Proof.
  revert idx; induction s as [|d s IH]; intros [|i idx]; simpl.
  - split; [intros _; split; [reflexivity|intros k Hk; lia]|reflexivity].
  - split; [discriminate|intros [H _]; discriminate].
  - split; [discriminate|intros [H _]; discriminate].
  - rewrite andb_true_iff, IH, Nat.ltb_lt. split.
    + intros [Hi [Hl Hk]]. split; [now f_equal|].
      intros [|k] Hlt; [assumption|apply Hk; lia].
    + intros [Hl Hk]. split; [apply (Hk 0%nat); lia|].
      split; [now injection Hl|].
      intros k Hlt. apply (Hk (S k)). lia.
Qed.

Lemma in_bounds_swap (i j : nat) (s idx : list nat) :
  (i < length s)%nat -> (j < length s)%nat ->
  in_bounds (swap_nth i j s) idx = true ->
  in_bounds s (swap_nth i j idx) = true.
Proof.
  intros Hi Hj H. apply in_bounds_nth in H. destruct H as [Hl Hk].
  rewrite length_swap_nth in Hl, Hk.
  apply in_bounds_nth. split; [now rewrite length_swap_nth|].
  intros k Hlt. rewrite nth_swap_nth by lia.
  specialize (Hk (transp i j k) (transp_lt _ _ _ _ Hi Hj Hlt)).
  rewrite nth_swap_nth, transp_invol in Hk by (apply transp_lt; assumption).
  exact Hk.
Qed.

Lemma swap_first_last (x y : nat) (m : list nat) :
  swap_nth (S (length m)) 0 (x :: m ++ [y]) = y :: m ++ [x].
Proof.
  apply (nth_ext _ _ 0%nat 0%nat).
  - rewrite length_swap_nth. simpl. now rewrite !length_app.
  - intros k Hk. rewrite length_swap_nth in Hk.
    rewrite nth_swap_nth by assumption.
    simpl in Hk. rewrite length_app in Hk. simpl in Hk.
    unfold transp.
    destruct (Nat.eqb_spec k (S (length m))) as [->|Hne].
    + simpl. rewrite app_nth2 by lia.
      replace (length m - length m)%nat with 0%nat by lia. reflexivity.
    + destruct k as [|k]; simpl.
      * rewrite app_nth2 by lia.
        replace (length m - length m)%nat with 0%nat by lia. reflexivity.
      * rewrite !app_nth1 by lia. reflexivity.
Qed.

Lemma swapaxes_last_first (a : ndarray) :
  ndim a <> 0%nat ->
  swapaxes a (-1) 0 =
  Some (tabulate (swap_nth (ndim a - 1) 0 (shape a))
          (fun idx => flat a (ravel (shape a) (swap_nth (ndim a - 1) 0 idx)))).
Proof.
  intros H. unfold swapaxes, normalize_axis.
  replace ((- Z.of_nat (ndim a) <=? -1) && (-1 <? Z.of_nat (ndim a)))%Z
    with true by (symmetry; apply andb_true_iff; split;
                  [apply Z.leb_le|apply Z.ltb_lt]; lia).
  replace ((- Z.of_nat (ndim a) <=? 0) && (0 <? Z.of_nat (ndim a)))%Z
    with true by (symmetry; apply andb_true_iff; split;
                  [apply Z.leb_le|apply Z.ltb_lt]; lia).
  cbn [bind Z.ltb Z.compare Z.to_nat].
  replace (Z.to_nat (-1 + Z.of_nat (ndim a))) with (ndim a - 1)%nat by lia.
  reflexivity.
Qed.

(** ** The sampling stage *)

Lemma unpack_shape_eq (b t : nat) (G : list nat) :
  unpack_shape (b :: G ++ [t]) = Some (b, G, t).
Proof.
  unfold unpack_shape.
  destruct (G ++ [t]) as [|x l] eqn:E.
  - destruct G; discriminate.
  - rewrite <- E, removelast_last, last_last. reflexivity.
Qed.

Lemma reshape_rows (a : ndarray) :
  reshape a [-1; 3]%Z =
  if (length (data a) mod 3 =? 0)%nat
  then Some (mk_ndarray [(length (data a) / 3)%nat; 3%nat] (data a))
  else None.
Proof.
  change [-1; 3]%Z with ((-1)%Z :: dims_of [3%nat]).
  rewrite reshape_infer_first. reflexivity.
Qed.

Section SamplingStage.

Variable spline_value : ndarray -> Z -> list Q -> Q.
Variables (volume coordinates : ndarray) (order : Z).

(** What the interpolation backend returns for a [(3, m)] coordinate
    array, whenever it returns. *)
Lemma map_coordinates_rows (c : ndarray) (m : nat) :
  shape c = [m; 3%nat] -> length (data c) = (m * 3)%nat ->
  map_coordinates spline_value volume (T c) order =
  if ((0 <=? order) && (order <=? 5))%Z && (1 <=? ndim volume)%nat
     && (3 =? ndim volume)%nat
  then Some (mk_ndarray [m]
               (map (fun j => spline_value volume order (coords_of (row (data c) j)))
                    (seq 0 m)))
  else None.
Proof.
  intros Hs Hl. unfold map_coordinates.
  destruct ((0 <=? order) && (order <=? 5))%Z; [|reflexivity].
  cbn [guard bind andb]. unfold T at 1. rewrite Hs. cbn [rev app tabulate shape length].
  destruct (1 <=? ndim volume)%nat; [|reflexivity].
  cbn [Nat.leb guard bind andb].
  destruct (3 =? ndim volume)%nat; [|reflexivity].
  cbn [guard bind]. do 2 f_equal.
  change (size [m]) with (m * 1)%nat. rewrite Nat.mul_1_r.
  apply map_ext_in. intros j Hj. apply in_seq in Hj.
  f_equal. cbn [seq map coords_of row].
  assert (E : forall k, (k < 3)%nat ->
              flat (T c) (k * m + j) = nth (3 * j + k) (data c) 0).
  { intros k Hk. unfold T. rewrite Hs. cbn [rev app].
    replace (k * m + j)%nat with (ravel [3%nat; m] [k; j]) by (simpl; lia).
    rewrite flat_tabulate_ravel
      by in_bounds_lia.
    unfold flat. f_equal. simpl. lia. }
  rewrite !E by lia. rewrite Nat.add_0_r. reflexivity.
Qed.

Lemma sample_returns (B : nat) (G : list nat) :
  wf coordinates -> shape coordinates = B :: G ++ [3%nat] ->
  ndim volume = 3%nat -> (0 <= order <= 5)%Z ->
  exists r,
    sample_volume_at_coordinates spline_value volume coordinates order = Some r
    /\ wf r
    /\ shape r = swap_nth (length G) 0 (G ++ [B])
    /\ forall idx, in_bounds (shape r) idx = true ->
         getitem r idx =
         Some (spline_value volume order
                 (coords_of (row (data coordinates)
                               (ravel (G ++ [B]) (swap_nth (length G) 0 idx))))).
Proof.
  intros Hwf Hs Hv Ho. unfold sample_volume_at_coordinates.
  rewrite Hs, unpack_shape_eq. cbn [bind].
  assert (Hl : length (data coordinates) = (B * size G * 3)%nat).
  { unfold wf in Hwf. rewrite Hwf, Hs. cbn [size fold_right].
    fold (size (G ++ [3%nat])). rewrite size_app.
    change (size [3%nat]) with 3%nat. lia. }
  rewrite reshape_rows, Hl, Nat.Div0.mod_mul, Nat.div_mul by lia.
  cbn [Nat.eqb bind].
  rewrite (map_coordinates_rows _ (B * size G)) by (auto; reflexivity).
  rewrite Hv.
  replace ((0 <=? order) && (order <=? 5))%Z with true
    by (symmetry; apply andb_true_iff; split; apply Z.leb_le; lia).
  cbn [Nat.leb Nat.eqb andb bind data].
  rewrite reshape_exact. cbn [data].
  rewrite length_map, length_seq, size_app.
  change (size [B]) with (B * 1)%nat.
  replace (B * size G =? size G * (B * 1))%nat with true
    by (symmetry; apply Nat.eqb_eq; lia).
  cbn [bind].
  rewrite swapaxes_last_first by (unfold ndim; cbn [shape]; rewrite length_app; simpl; lia).
  unfold ndim. cbn [shape]. rewrite length_app. cbn [length].
  replace (length G + 1 - 1)%nat with (length G) by lia.
  eexists; split; [reflexivity|].
  split; [apply wf_tabulate|]. split; [reflexivity|].
  intros idx Hin. cbn [shape tabulate] in Hin.
  rewrite getitem_tabulate by exact Hin.
  apply in_bounds_swap in Hin; try (rewrite length_app; simpl; lia).
  apply ravel_lt in Hin. rewrite size_app in Hin.
  change (size [B]) with (B * 1)%nat in Hin.
  unfold flat. cbn [data].
  rewrite nth_map_seq by lia. reflexivity.
Qed.

(** Without an explicit check, a trailing dimension other than 3 is only
    noticed by one of the two reshapes, and only on a non-empty array. *)
Lemma sample_fails_trailing (B t : nat) (G : list nat) :
  wf coordinates -> shape coordinates = B :: G ++ [t] ->
  t <> 3%nat -> size (shape coordinates) <> 0%nat ->
  sample_volume_at_coordinates spline_value volume coordinates order = None.
Proof.
  intros Hwf Hs Ht Hne. unfold sample_volume_at_coordinates.
  rewrite Hs, unpack_shape_eq. cbn [bind].
  assert (Hl : length (data coordinates) = (B * size G * t)%nat).
  { unfold wf in Hwf. rewrite Hwf, Hs. cbn [size fold_right].
    fold (size (G ++ [t])). rewrite size_app.
    change (size [t]) with (t * 1)%nat. lia. }
  assert (Hpos : (B * size G * t <> 0)%nat).
  { unfold wf in Hwf. rewrite <- Hl, Hwf. exact Hne. }
  rewrite reshape_rows.
  destruct (Nat.eqb_spec (length (data coordinates) mod 3) 0) as [Hm|Hm];
    [|reflexivity].
  cbn [bind].
  rewrite (map_coordinates_rows _ (length (data coordinates) / 3))
    by (auto; cbn [data];
        pose proof (Nat.div_mod_eq (length (data coordinates)) 3); lia).
  destruct (((0 <=? order) && (order <=? 5))%Z && (1 <=? ndim volume)%nat
            && (3 =? ndim volume)%nat); [|reflexivity].
  cbn [bind]. rewrite reshape_exact. cbn [data].
  rewrite length_map, length_seq, size_app.
  change (size [B]) with (B * 1)%nat.
  destruct (Nat.eqb_spec (length (data coordinates) / 3) (size G * (B * 1)))
    as [E|E]; [|reflexivity].
  exfalso.
  pose proof (Nat.div_mod_eq (length (data coordinates)) 3) as D.
  rewrite Hm, E, Hl in D. nia.
Qed.

(** A volume that is not 3-dimensional is rejected by the interpolation
    backend, if the call gets that far. *)
Lemma sample_fails_volume :
  ndim volume <> 3%nat ->
  sample_volume_at_coordinates spline_value volume coordinates order = None.
Proof.
  intros Hv. unfold sample_volume_at_coordinates.
  destruct (unpack_shape (shape coordinates)) as [[[batch grid_shape] t]|];
    [|reflexivity].
  cbn [bind]. rewrite reshape_rows.
  destruct (Nat.eqb_spec (length (data coordinates) mod 3) 0) as [Hm|Hm];
    [|reflexivity].
  cbn [bind].
  rewrite (map_coordinates_rows _ (length (data coordinates) / 3))
    by (auto; cbn [data];
        pose proof (Nat.div_mod_eq (length (data coordinates)) 3); lia).
  replace (3 =? ndim volume)%nat with false
    by (symmetry; apply Nat.eqb_neq; lia).
  rewrite andb_false_r. reflexivity.
Qed.

End SamplingStage.

(** ** Pose placement: claims *)

(** C1 (fails on the code).  The claim asks that batch element [i] of the
    result be the grid under pose [i].  On a grid of two points
    [(1,0,0)], [(0,2,0)] with poses (identity, [(10,0,0)]) and (quarter turn
    about z, [(0,20,0)]), the result has shape [(2, 2, 3)] but its entry
    [(0, 1)] is grid point 0 under pose 1, [(0,21,0)], where the claim asks
    for grid point 1 under pose 0, [(10,2,0)]: the rotated copies are stacked
    along axis 1 (point-major) and then reshaped as if batch-major. *)
Theorem generate_sampling_coordinates_interleaves_poses :
  exists r,
    generate_sampling_coordinates grid_two_points two_positions
      [identity; rot_z90] = Some r
    /\ shape r = [2; 2; 3]%nat
    /\ point_at grid_two_points [0%nat] = Some (1, 0, 0)
    /\ point_at grid_two_points [1%nat] = Some (0, 2, 0)
    /\ point_at r [0; 1]%nat = Some (vadd (apply_vec rot_z90 (1, 0, 0)) (0, 20, 0))
    /\ vadd (apply_vec identity (0, 2, 0)) (10, 0, 0) = (10, 2, 0)
    /\ exists x y z,
         point_at r [0; 1]%nat = Some (x, y, z)
         /\ ~ (x == 10 /\ y == 2 /\ z == 0).
Proof.
  eexists. split; [vm_compute; reflexivity|].
  repeat split; try reflexivity.
  exists 0, 21, 0. split; [reflexivity|].
  intros [H _]. discriminate H.
Qed.

(** C9 (fails on the code).  An all-zero grid of two points placed at
    positions [(10,0,0)], [(0,20,0)] with identity orientations: batch element
    0 should hold [(10,0,0)] at both grid points, but its second point is
    [(0,20,0)], the other position. *)
Theorem zero_grid_positions_interleaved :
  exists r,
    generate_sampling_coordinates zero_grid_two_points two_positions
      [identity; identity] = Some r
    /\ point_at two_positions [0%nat] = Some (10, 0, 0)
    /\ point_at two_positions [1%nat] = Some (0, 20, 0)
    /\ point_at r [0; 0]%nat = Some (10, 0, 0)
    /\ exists x y z,
         point_at r [0; 1]%nat = Some (x, y, z)
         /\ (x == 0 /\ y == 20 /\ z == 0)
         /\ ~ (x == 10 /\ y == 0 /\ z == 0).
Proof.
  eexists. split; [vm_compute; reflexivity|].
  repeat split; try reflexivity.
  exists 0, 20, 0. repeat split; try reflexivity.
  intros [H _]. discriminate H.
Qed.

(** Placing an all-zero grid with a single pose does give the position at
    every grid point; the interleaving above only shows with several poses. *)
Lemma zero_grid_single_position
    (sampling_grid positions : ndarray) (G : list nat) :
  wf sampling_grid -> shape sampling_grid = G ++ [3%nat] -> size G <> 0%nat ->
  (forall k, nth k (data sampling_grid) 0 == 0) ->
  shape positions = [1; 3]%nat ->
  exists r,
    generate_sampling_coordinates sampling_grid positions [identity] = Some r
    /\ shape r = 1%nat :: G ++ [3%nat]
    /\ forall js, in_bounds G js = true ->
         exists x y z,
           point_at r (0%nat :: js) = Some (x, y, z)
           /\ x == nth 0 (data positions) 0
           /\ y == nth 1 (data positions) 0
           /\ z == nth 2 (data positions) 0.
Proof.
  intros Hwf Hs HN Hz Hp.
  destruct (placement_point_at sampling_grid positions [identity] G 1
              Hwf Hs Hp 1) as (r & Hr & Hsr & Hpt);
    [discriminate|reflexivity|assumption|].
  exists r. repeat split; auto.
  intros js Hjs. specialize (Hpt 0%nat js Nat.lt_0_1 Hjs).
  cbn zeta in Hpt. cbn [length Nat.eqb nth] in Hpt.
  rewrite Hpt. unfold row, apply_vec, vadd, dot, identity.
  cbn [row0 row1 row2].
  do 3 eexists. split; [reflexivity|].
  repeat split; rewrite !Hz; cbn [Nat.mul Nat.add]; ring.
Qed.

(** C10.  One position and [B > 1] orientations: the call returns an array
    of shape [(B, *G, 3)] in which every point is a rotated grid point plus
    that one position (point [i, js] is grid point [m / B] under orientation
    [m mod B], for [m = i * size G + ravel G js]). *)
Theorem single_position_is_broadcast
    (sampling_grid positions : ndarray) (orientations : list Rotation)
    (G : list nat) :
  wf sampling_grid -> shape sampling_grid = G ++ [3%nat] -> size G <> 0%nat ->
  shape positions = [1; 3]%nat ->
  (1 < length orientations)%nat ->
  exists r,
    generate_sampling_coordinates sampling_grid positions orientations = Some r
    /\ shape r = length orientations :: G ++ [3%nat]
    /\ forall i js, (i < length orientations)%nat -> in_bounds G js = true ->
         let m := (i * size G + ravel G js)%nat in
         point_at r (i :: js) =
         Some (vadd (apply_vec (nth (m mod length orientations) orientations identity)
                               (row (data sampling_grid) (m / length orientations)))
                    (row (data positions) 0)).
Proof.
  intros Hwf Hs HN Hp HB.
  assert (Hne : orientations <> []) by (destruct orientations; simpl in HB; [lia|discriminate]).
  assert (Hd : broadcast_dim (length orientations) 1 = Some (length orientations))
    by (apply broadcast_dim_Some; lia).
  destruct (placement_point_at sampling_grid positions orientations G 1
              Hwf Hs Hp (length orientations) Hne Hd HN) as (r & Hr & Hsr & Hpt).
  exists r. repeat split; auto.
  intros i js Hi Hjs m. specialize (Hpt i js Hi Hjs). cbn zeta in Hpt.
  replace (length orientations =? 1)%nat with false in Hpt
    by (symmetry; apply Nat.eqb_neq; lia).
  exact Hpt.
Qed.

Lemma single_position_is_broadcast_witness :
  exists r,
    generate_sampling_coordinates grid_two_points one_position
      [identity; rot_z90] = Some r
    /\ shape r = [2; 2; 3]%nat.
Proof.
  destruct (single_position_is_broadcast grid_two_points one_position
              [identity; rot_z90] [2%nat]) as (r & Hr & Hs & _).
  - reflexivity.
  - reflexivity.
  - simpl; lia.
  - reflexivity.
  - simpl; lia.
  - exists r. split; [exact Hr|exact Hs].
Defined.

(** C7 (counterexample).  One position against two orientations: the lengths
    differ and the call returns. *)
Lemma length_mismatch_returns :
  len one_position = Some 1%nat
  /\ length [identity; rot_z90] = 2%nat
  /\ generate_sampling_coordinates grid_two_points one_position
       [identity; rot_z90] <> None.
Proof. repeat split; try reflexivity. vm_compute. discriminate. Qed.

(** C7 (amended).  There is no length check.  With [P] positions and a
    different number [B] of orientations, on a non-empty grid, the loop over
    the orientations always runs to its end (every rotation is applied), and
    the call fails exactly when there is no orientation at all ([np.stack] of
    nothing) or when neither [B] nor [P] is 1 (the addition cannot
    broadcast). *)
Theorem length_mismatch_fails_iff_not_broadcastable
    (sampling_grid positions : ndarray) (orientations : list Rotation)
    (G : list nat) (P : nat) :
  wf sampling_grid -> shape sampling_grid = G ++ [3%nat] -> size G <> 0%nat ->
  shape positions = [P; 3%nat] ->
  length orientations <> P ->
  (exists grid_coords rotated,
      reshape sampling_grid [-1; 3]%Z = Some grid_coords
      /\ rotate_all grid_coords orientations = Some rotated
      /\ length rotated = length orientations)
  /\ (generate_sampling_coordinates sampling_grid positions orientations = None
      <-> length orientations = 0%nat
          \/ (length orientations <> 1%nat /\ P <> 1%nat)).
Proof.
  intros Hwf Hs HN Hp Hneq. split.
  - eexists; eexists. split; [apply (grid_coords_eq sampling_grid G Hwf Hs)|].
    split; [apply rotate_all_eq; reflexivity|]. now rewrite length_map.
  - destruct orientations as [|r0 rs] eqn:E.
    + split; [intros _; left; reflexivity|].
      intros _. apply (placement_fails sampling_grid positions [] G P Hwf Hs Hp).
      now left.
    + rewrite <- E in *.
      destruct (broadcast_dim (length orientations) P) as [d|] eqn:Hd.
      * destruct (placement_returns sampling_grid positions orientations G P
                    Hwf Hs Hp d) as (r & Hr & _);
          [rewrite E; discriminate|assumption|assumption|].
        rewrite Hr. apply broadcast_dim_Some in Hd.
        split; [discriminate|].
        intros [H0|[H1 HP]]; [rewrite E in H0; discriminate|lia].
      * split.
        -- intros _. right. apply broadcast_dim_None in Hd. tauto.
        -- intros _.
           apply (placement_fails sampling_grid positions orientations G P Hwf Hs Hp).
           right; now left.
Qed.

Lemma length_mismatch_fails_iff_not_broadcastable_witness :
  generate_sampling_coordinates grid_two_points
    (mk_ndarray [3; 3]%nat [1; 0; 0; 0; 1; 0; 0; 0; 1]) [identity; rot_z90] = None.
Proof.
  apply (length_mismatch_fails_iff_not_broadcastable grid_two_points
           (mk_ndarray [3; 3]%nat [1; 0; 0; 0; 1; 0; 0; 0; 1])
           [identity; rot_z90] [2%nat] 3).
  - reflexivity.
  - reflexivity.
  - simpl; lia.
  - reflexivity.
  - simpl; lia.
  - right. simpl. split; lia.
Defined.

(** ** Sampling: claims *)

(** C2 (fails on the code).  The docstring promises the grid shape followed
    by the batch axis.  For coordinates of shape [(2, 3, 3)], that is
    [B = 2] and [G = (3,)], the result has shape [(2, 3)], not [(3, 2)]; for
    coordinates of shape [(2, 3, 4, 3)], that is [G = (3, 4)], it has shape
    [(2, 4, 3)], not [(3, 4, 2)]. *)
Theorem sample_shape_batch_first :
  (exists r,
      sample_volume_at_coordinates coordinate_sum unit_volume coords_2_3_3 3
        = Some r
      /\ shape r = [2; 3]%nat
      /\ shape r <> [3; 2]%nat)
  /\ (exists r,
        sample_volume_at_coordinates coordinate_sum unit_volume coords_2_3_4_3 3
          = Some r
        /\ shape r = [2; 4; 3]%nat
        /\ shape r <> [3; 4; 2]%nat).
Proof.
  split; (eexists; split; [vm_compute; reflexivity|]);
    (split; [reflexivity|]); simpl; intros H; discriminate H.
Qed.

(** The shape the code returns, for every backend: the interpolated values
    are reshaped to [(g1, ..., gk, B)] and the last axis is then exchanged
    with axis 0, which gives [(B, g2, ..., gk, g1)] ([(B,)] when [k = 0]). *)
Lemma sample_shape
    (spline_value : ndarray -> Z -> list Q -> Q)
    (volume coordinates : ndarray) (order : Z) (B : nat) (G : list nat) :
  ndim volume = 3%nat -> (0 <= order <= 5)%Z ->
  wf coordinates -> shape coordinates = B :: G ++ [3%nat] ->
  exists r,
    sample_volume_at_coordinates spline_value volume coordinates order = Some r
    /\ wf r
    /\ shape r = match G with
                 | [] => [B]
                 | g1 :: G' => B :: G' ++ [g1]
                 end.
Proof.
  intros Hv Ho Hwf Hs.
  destruct (sample_returns spline_value volume coordinates order B G Hwf Hs Hv Ho)
    as (r & Hr & Hwfr & Hsr & _).
  exists r. repeat split; auto.
  rewrite Hsr. destruct G as [|g1 G']; [reflexivity|].
  cbn [length app]. apply swap_first_last.
Qed.

Lemma sample_shape_witness :
  exists r,
    sample_volume_at_coordinates coordinate_sum unit_volume coords_2_3_3 3 = Some r
    /\ shape r = [2; 3]%nat.
Proof.
  destruct (sample_shape coordinate_sum unit_volume coords_2_3_3 3 2 [3%nat])
    as (r & Hr & _ & Hs).
  - reflexivity.
  - lia.
  - reflexivity.
  - reflexivity.
  - exists r. split; [exact Hr|exact Hs].
Defined.

(** C8 (counterexample).  An empty coordinate array of shape [(0, 2)]: the
    trailing dimension is 2 and the call returns (an empty result).  And on
    the non-empty array of shape [(3, 2)] nothing is detected on entry: its
    six numbers are regrouped into two points and interpolated, and only the
    last reshape raises. *)
Lemma wrong_trailing_dimension_not_checked :
  (shape coords_0_2 = [0; 2]%nat
   /\ ndim unit_volume = 3%nat
   /\ sample_volume_at_coordinates coordinate_sum unit_volume coords_0_2 3 <> None)
  /\ (shape coords_3_2 = [3; 2]%nat
      /\ exists c sampled,
          reshape coords_3_2 [-1; 3]%Z = Some c
          /\ map_coordinates coordinate_sum unit_volume (T c) 3 = Some sampled
          /\ shape sampled = [2%nat]
          /\ sample_volume_at_coordinates coordinate_sum unit_volume coords_3_2 3
             = None).
Proof.
  split.
  - repeat split. vm_compute. discriminate.
  - split; [reflexivity|].
    eexists; eexists. split; [vm_compute; reflexivity|].
    split; [vm_compute; reflexivity|]. split; reflexivity.
Qed.

(** C8 (amended).  The call fails for every non-empty coordinate array
    [(B, *G, t)] with [t <> 3] and, whatever the coordinates, for every volume
    that is not 3-dimensional. *)
Theorem sample_rejects_bad_shapes
    (spline_value : ndarray -> Z -> list Q -> Q)
    (volume coordinates : ndarray) (order : Z) :
  (forall B G t,
      wf coordinates -> shape coordinates = B :: G ++ [t] ->
      t <> 3%nat -> size (shape coordinates) <> 0%nat ->
      sample_volume_at_coordinates spline_value volume coordinates order = None)
  /\ (ndim volume <> 3%nat ->
      sample_volume_at_coordinates spline_value volume coordinates order = None).
Proof.
  split.
  - intros B G t. apply sample_fails_trailing.
  - apply sample_fails_volume.
Qed.

Lemma sample_rejects_bad_shapes_witness :
  sample_volume_at_coordinates coordinate_sum unit_volume coords_3_2 3 = None
  /\ sample_volume_at_coordinates coordinate_sum flat_volume coords_2_3_3 3 = None.
Proof.
  split.
  - apply (proj1 (sample_rejects_bad_shapes coordinate_sum unit_volume coords_3_2 3)
             3%nat [] 2%nat).
    + reflexivity.
    + reflexivity.
    + lia.
    + vm_compute; lia.
  - apply (proj2 (sample_rejects_bad_shapes coordinate_sum flat_volume coords_2_3_3 3)).
    vm_compute; lia.
Defined.

(** ** Both stages together *)

Lemma getitem_Some (a : ndarray) (idx : list nat) (v : Q) :
  getitem a idx = Some v ->
  in_bounds (shape a) idx = true /\ v = flat a (ravel (shape a) idx).
Proof.
  unfold getitem, flat. destruct (in_bounds (shape a) idx); [|discriminate].
  intros H. split; [reflexivity|]. symmetry. now apply nth_error_nth.
Qed.

Lemma point_at_row (a : ndarray) (s idx : list nat) (p : vec3) :
  shape a = s ++ [3%nat] -> point_at a idx = Some p ->
  in_bounds s idx = true /\ p = row (data a) (ravel s idx).
Proof.
  intros Hs. unfold point_at.
  destruct (getitem a (idx ++ [0%nat])) as [x|] eqn:Ex; [|discriminate].
  destruct (getitem a (idx ++ [1%nat])) as [y|] eqn:Ey; [|discriminate].
  destruct (getitem a (idx ++ [2%nat])) as [z|] eqn:Ez; [|discriminate].
  cbn [bind]. intros H; injection H as <-.
  apply getitem_Some in Ex, Ey, Ez.
  destruct Ex as [Hb ->], Ey as [_ ->], Ez as [_ ->].
  rewrite Hs in *.
  assert (Hl : length idx = length s).
  { apply in_bounds_length in Hb. rewrite !length_app in Hb. simpl in Hb. lia. }
  rewrite in_bounds_app in Hb by assumption.
  apply andb_true_iff in Hb. destruct Hb as [Hb _].
  split; [assumption|].
  rewrite !ravel_app by assumption.
  unfold row, flat.
  f_equal; [f_equal|]; (apply (f_equal (fun k => nth k (data a) 0)); simpl; lia).
Qed.

(** C3.  Sampling the coordinates produced by the pose stage: for a 3-D
    volume, a valid spline order, a non-empty grid of shape
    [(g1, ..., gk, 3)] and as many positions as orientations ([B >= 1]), both
    stages return, the result has shape [(B, g2, ..., gk, g1)], and its entry
    [(i, j2, ..., jk, j1)] is the interpolant of the volume at
    [orientations[i].apply(grid[j1, ..., jk]) + positions[i]]. *)
Theorem pipeline_samples_each_pose
    (spline_value : ndarray -> Z -> list Q -> Q)
    (volume sampling_grid positions : ndarray) (orientations : list Rotation)
    (order : Z) (g1 : nat) (G' : list nat) :
  ndim volume = 3%nat -> (0 <= order <= 5)%Z ->
  wf sampling_grid -> shape sampling_grid = g1 :: G' ++ [3%nat] ->
  size (g1 :: G') <> 0%nat ->
  orientations <> [] ->
  shape positions = [length orientations; 3%nat] ->
  exists coordinates sampled,
    generate_sampling_coordinates sampling_grid positions orientations
      = Some coordinates
    /\ sample_volume_at_coordinates spline_value volume coordinates order
      = Some sampled
    /\ shape sampled = length orientations :: G' ++ [g1]
    /\ forall i j1 js orientation g p,
         nth_error orientations i = Some orientation ->
         point_at sampling_grid (j1 :: js) = Some g ->
         point_at positions [i] = Some p ->
         getitem sampled (i :: js ++ [j1]) =
         Some (spline_value volume order
                 (coords_of (vadd (apply_vec orientation g) p))).
Proof.
  intros Hv Ho Hwf Hs HN Hne Hp.
  set (B := length orientations) in *.
  assert (HB : B <> 0%nat) by (subst B; destruct orientations; simpl; congruence).
  assert (Hd : broadcast_dim B B = Some B) by (apply broadcast_dim_Some; lia).
  destruct (placement_rows sampling_grid positions orientations (g1 :: G') B
              Hwf Hs Hp B Hne Hd HN) as (c & Hc & Hsc & Hwfc & Hrow).
  destruct (sample_returns spline_value volume c order B (g1 :: G') Hwfc Hsc Hv Ho)
    as (r & Hr & Hwfr & Hsr & Hget).
  cbn [length app] in Hsr, Hget. rewrite swap_first_last in Hsr.
  exists c, r. repeat split; auto.
  intros i j1 js orientation g p HR Hg Hpos.
  apply (point_at_row sampling_grid (g1 :: G')) in Hg; [|exact Hs].
  apply (point_at_row positions [B]) in Hpos; [|exact Hp].
  destruct Hg as [Hjs ->], Hpos as [Hi ->].
  assert (Hlen : length js = length G').
  { apply in_bounds_length in Hjs. simpl in Hjs. lia. }
  assert (HiB : (i < B)%nat).
  { simpl in Hi. apply andb_true_iff in Hi. destruct Hi as [Hi _].
    now apply Nat.ltb_lt in Hi. }
  assert (Hin : in_bounds (shape r) (i :: js ++ [j1]) = true).
  { rewrite Hsr. cbn [in_bounds].
    rewrite in_bounds_app by assumption.
    cbn [in_bounds] in Hjs |- *.
    apply andb_true_iff in Hjs. destruct Hjs as [H1 H2].
    rewrite H1, H2. replace (i <? B)%nat with true
      by (symmetry; now apply Nat.ltb_lt).
    reflexivity. }
  rewrite (Hget _ Hin). rewrite <- Hlen, swap_first_last.
  change (g1 :: G' ++ [B]) with ((g1 :: G') ++ [B]).
  change (j1 :: js ++ [i]) with ((j1 :: js) ++ [i]).
  rewrite ravel_app by (simpl; now f_equal).
  change (size [B]) with (B * 1)%nat. change (ravel [B] [i]) with (i * 1 + 0)%nat.
  replace (ravel (g1 :: G') (j1 :: js) * (B * 1) + (i * 1 + 0))%nat
    with (ravel (g1 :: G') (j1 :: js) * B + i)%nat by lia.
  rewrite Hrow by (auto using ravel_lt).
  fold B.
  replace (if (B =? 1)%nat then 0%nat else i) with i
    by (destruct (Nat.eqb_spec B 1); lia).
  rewrite (nth_error_nth _ _ identity HR).
  replace (i * 1 + 0)%nat with i by lia.
  reflexivity.
Qed.

Lemma pipeline_samples_each_pose_witness :
  exists coordinates sampled,
    generate_sampling_coordinates grid_two_points two_positions [identity; rot_z90]
      = Some coordinates
    /\ sample_volume_at_coordinates coordinate_sum unit_volume coordinates 3
      = Some sampled
    /\ shape sampled = [2; 2]%nat.
Proof.
  destruct (pipeline_samples_each_pose coordinate_sum unit_volume
              grid_two_points two_positions [identity; rot_z90] 3 2 [])
    as (c & r & Hc & Hr & Hs & _).
  - reflexivity.
  - lia.
  - reflexivity.
  - reflexivity.
  - simpl; lia.
  - discriminate.
  - reflexivity.
  - exists c, r. repeat split; assumption.
Defined.

(** ** The grid generator

    On the rational arrays: when the generator fails, the shape of what it
    returns, and where each axis sample lands in the result.  The values
    stated here are those of exact arithmetic. *)

Lemma nth_map_lt (f : Q -> Q) (l : list Q) (i : nat) :
  (i < length l)%nat -> nth i (map f l) 0 = f (nth i l 0).
Proof.
  intros H. rewrite (nth_indep _ 0 (f 0)) by (now rewrite length_map).
  apply map_nth.
Qed.

Lemma nth_set_last (l : list Q) (x : Q) (i : nat) :
  (i < length l)%nat ->
  nth i (set_last l x) 0 = if (i =? length l - 1)%nat then x else nth i l 0.
Proof.
  intros H. unfold set_last. destruct l as [|a l]; [simpl in H; lia|].
  set (l' := a :: l) in *.
  assert (Hrl : length (removelast l') = (length l' - 1)%nat).
  { rewrite removelast_firstn_len, length_firstn. lia. }
  destruct (Nat.eqb_spec i (length l' - 1)) as [->|Hne].
  - rewrite app_nth2 by lia. rewrite Hrl, Nat.sub_diag. reflexivity.
  - rewrite app_nth1 by lia.
    rewrite removelast_firstn_len, nth_firstn.
    replace (i <? Nat.pred (length l'))%nat with true
      by (symmetry; apply Nat.ltb_lt; lia).
    reflexivity.
Qed.

Lemma length_set_last (l : list Q) (x : Q) : length (set_last l x) = length l.
Proof.
  unfold set_last. destruct l as [|a l]; [reflexivity|].
  rewrite length_app, removelast_firstn_len, length_firstn. simpl. lia.
Qed.

Lemma linspace_negative (start stop : Q) (num : Z) :
  (num < 0)%Z -> linspace start stop num = None.
Proof.
  intros H. unfold linspace.
  replace (0 <=? num)%Z with false by (symmetry; apply Z.leb_gt; lia).
  reflexivity.
Qed.

Lemma linspace_centred (num : Z) :
  (2 <= num)%Z ->
  exists y,
    linspace (-1 # 2) (1 # 2) num = Some (mk_ndarray [Z.to_nat num] y)
    /\ length y = Z.to_nat num
    /\ forall i, (i < Z.to_nat num)%nat ->
         nth i y 0 * inject_Z (num - 1)
         == - (inject_Z (num - 1) / 2) + inject_Z (Z.of_nat i).
Proof.
  intros H. unfold linspace.
  replace (0 <=? num)%Z with true by (symmetry; apply Z.leb_le; lia).
  replace (0 <? num - 1)%Z with true by (symmetry; apply Z.ltb_lt; lia).
  replace (1 <? num)%Z with true by (symmetry; apply Z.ltb_lt; lia).
  cbn [guard bind].
  eexists. split; [reflexivity|].
  assert (Hd : ~ inject_Z (num - 1) == 0).
  { intros E. unfold Qeq in E. simpl in E. lia. }
  split.
  - rewrite length_set_last.
    destruct (Qeq_bool _ 0); now rewrite !length_map, length_seq.
  - intros i Hi.
    rewrite nth_set_last
      by (destruct (Qeq_bool _ 0); now rewrite !length_map, length_seq).
    replace (length _) with (Z.to_nat num)
      by (destruct (Qeq_bool _ 0); now rewrite !length_map, length_seq).
    destruct (Nat.eqb_spec i (Z.to_nat num - 1)) as [->|Hne].
    + replace (Z.of_nat (Z.to_nat num - 1)) with (num - 1)%Z by lia.
      field.
    + rewrite nth_map_lt
        by (destruct (Qeq_bool _ 0); now rewrite !length_map, length_seq).
      destruct (Qeq_bool _ 0);
        rewrite nth_map_lt by (now rewrite length_map, length_seq);
        rewrite (nth_map_seq _ (fun i => inject_Z (Z.of_nat i))) by assumption;
        field; exact Hd.
Qed.

Lemma axis_coord_negative (ln : Z) (spacing : Q) :
  (ln < 0)%Z -> axis_coord ln spacing = None.
Proof.
  intros H. unfold axis_coord.
  replace (ln =? 1)%Z with false by (symmetry; apply Z.eqb_neq; lia).
  cbn [negb]. now rewrite linspace_negative.
Qed.

Lemma axis_coord_returns (ln : Z) (spacing : Q) :
  (0 <= ln)%Z ->
  exists c,
    axis_coord ln spacing = Some c
    /\ length (data c) = Z.to_nat ln
    /\ (ln = 1%Z -> data c = [0])
    /\ forall i, (i < Z.to_nat ln)%nat ->
         nth i (data c) 0 == centred_sample ln spacing i.
Proof.
  intros H. unfold axis_coord.
  destruct (Z.eqb_spec ln 1) as [->|Hne]; cbn [negb].
  - exists (scalar 0). repeat split; try reflexivity.
    intros i Hi. assert (i = 0%nat) as -> by (simpl in Hi; lia).
    unfold centred_sample. simpl. field.
  - assert (ln = 0 \/ 2 <= ln)%Z as [->|H2] by lia.
    + eexists. split; [reflexivity|]. repeat split; try reflexivity.
      * lia.
      * intros i Hi. simpl in Hi. lia.
    + destruct (linspace_centred ln H2) as (y & -> & Hl & Hy).
      cbn [bind]. eexists. split; [reflexivity|].
      unfold mul_scalar. cbn [data shape]. rewrite !length_map.
      repeat split; [assumption|lia|].
      intros i Hi.
      rewrite nth_map_lt by (now rewrite length_map, Hl).
      rewrite nth_map_lt by (now rewrite Hl).
      rewrite Hy by assumption. unfold centred_sample. field.
Qed.

Lemma broadcast_dim_1_l (n : nat) : broadcast_dim 1 n = Some n.
Proof. apply broadcast_dim_Some. lia. Qed.

Lemma broadcast_dim_1_r (n : nat) : broadcast_dim n 1 = Some n.
Proof. apply broadcast_dim_Some. lia. Qed.

Lemma broadcast_shapes_axes (n0 n1 n2 : nat) :
  broadcast_shapes_all [[n0; 1; 1]; [1; n1; 1]; [1; 1; n2]]%nat = Some [n0; n1; n2].
Proof.
  unfold broadcast_shapes_all, broadcast_shapes.
  cbn [fold_left rev app broadcast_rev bind option_map].
  rewrite !broadcast_dim_1_l, !broadcast_dim_1_r.
  cbn [fold_left rev app broadcast_rev bind option_map].
  rewrite !broadcast_dim_1_l, !broadcast_dim_1_r.
  reflexivity.
Qed.

Lemma reshape_axis0 (a : ndarray) :
  reshape a [-1; 1; 1]%Z = Some (mk_ndarray [length (data a); 1; 1]%nat (data a)).
Proof.
  unfold reshape.
  change (count_unknown [-1; 1; 1]%Z) with 1%nat.
  change (known_size [-1; 1; 1]%Z) with 1%nat.
  rewrite Nat.mod_1_r, Nat.div_1_r. reflexivity.
Qed.

Lemma reshape_axis1 (a : ndarray) :
  reshape a [1; -1; 1]%Z = Some (mk_ndarray [1; length (data a); 1]%nat (data a)).
Proof.
  unfold reshape.
  change (count_unknown [1; -1; 1]%Z) with 1%nat.
  change (known_size [1; -1; 1]%Z) with 1%nat.
  rewrite Nat.mod_1_r, Nat.div_1_r. reflexivity.
Qed.

Lemma reshape_axis2 (a : ndarray) :
  reshape a [1; 1; -1]%Z = Some (mk_ndarray [1; 1; length (data a)]%nat (data a)).
Proof.
  unfold reshape.
  change (count_unknown [1; 1; -1]%Z) with 1%nat.
  change (known_size [1; 1; -1]%Z) with 1%nat.
  rewrite Nat.mod_1_r, Nat.div_1_r. reflexivity.
Qed.

Lemma meshgrid_ij_3 (c0 c1 c2 : ndarray) :
  let n0 := length (data c0) in
  let n1 := length (data c1) in
  let n2 := length (data c2) in
  meshgrid_ij [c0; c1; c2] =
  Some (map (fun x => broadcast_to x [n0; n1; n2])
          [mk_ndarray [n0; 1; 1]%nat (data c0);
           mk_ndarray [1; n1; 1]%nat (data c1);
           mk_ndarray [1; 1; n2]%nat (data c2)]).
Proof.
  intros n0 n1 n2. unfold meshgrid_ij.
  cbn [length seq combine mapM fst snd repeat app Nat.sub].
  rewrite reshape_axis0, reshape_axis1, reshape_axis2.
  cbn [bind map shape].
  rewrite broadcast_shapes_axes. reflexivity.
Qed.

(** The grid before squeezing: entry [(i0, i1, i2, k)] is sample [ik] of
    axis [k]. *)
Lemma stack_meshgrid (c0 c1 c2 : ndarray) :
  let n0 := length (data c0) in
  let n1 := length (data c1) in
  let n2 := length (data c2) in
  exists grid,
    (m <- meshgrid_ij [c0; c1; c2] ;; stack m 3) = Some grid
    /\ shape grid = [n0; n1; n2; 3%nat]
    /\ wf grid
    /\ forall i0 i1 i2 k,
         (i0 < n0)%nat -> (i1 < n1)%nat -> (i2 < n2)%nat -> (k < 3)%nat ->
         flat grid (ravel [n0; n1; n2; 3%nat] [i0; i1; i2; k]) =
         nth (nth k [i0; i1; i2] 0%nat) (data (nth k [c0; c1; c2] c0)) 0.
Proof.
  intros n0 n1 n2. rewrite meshgrid_ij_3. cbn [bind].
  fold n0 n1 n2.
  rewrite (stack_map _ (fun x => broadcast_to x [n0; n1; n2]) [n0; n1; n2])
    by (auto; simpl; lia).
  cbn [firstn skipn app length].
  eexists. split; [reflexivity|]. split; [reflexivity|].
  split; [apply wf_tabulate|].
  intros i0 i1 i2 k H0 H1 H2 Hk.
  rewrite flat_tabulate_ravel
    by in_bounds_lia.
  cbn [remove_nth firstn skipn app].
  change (nth 3 [i0; i1; i2; k] 0%nat) with k.
  unfold broadcast_to.
  rewrite flat_tabulate_ravel
    by in_bounds_lia.
  unfold flat, broadcast_index.
  destruct k as [|[|[|k]]]; [| | |lia];
    cbn [nth shape data length Nat.sub skipn pin Nat.eqb];
    f_equal.
  - destruct (Nat.eqb_spec n0 1); simpl; lia.
  - destruct (Nat.eqb_spec n1 1); simpl; lia.
  - destruct (Nat.eqb_spec n2 1); simpl; lia.
Qed.

Lemma size_squeezed (s : list nat) : size (filter not_one s) = size s.
Proof.
  induction s as [|d s IH]; [reflexivity|]. unfold not_one in *. simpl.
  destruct (Nat.eqb_spec d 1) as [->|Hne]; simpl; rewrite IH; lia.
Qed.

Lemma squeeze_index_ok (s idx : list nat) :
  in_bounds s idx = true ->
  in_bounds (filter not_one s) (squeeze_index s idx) = true
  /\ ravel (filter not_one s) (squeeze_index s idx) = ravel s idx.
Proof.
  revert idx; induction s as [|d s IH]; intros [|i idx] H; simpl in *;
    try discriminate; auto.
  apply andb_true_iff in H. destruct H as [Hi H].
  apply Nat.ltb_lt in Hi. destruct (IH _ H) as [IH1 IH2].
  unfold not_one in *.
  destruct (Nat.eqb_spec d 1) as [->|Hne]; simpl.
  - split; [assumption|]. rewrite IH2. lia.
  - rewrite IH1, IH2, size_squeezed.
    replace (i <? d)%nat with true by (symmetry; now apply Nat.ltb_lt).
    auto.
Qed.

Section Grid.

Variables (n0 n1 n2 : Z) (s0 s1 s2 : Q) (squeeze : bool).

Let full_shape : list nat := [Z.to_nat n0; Z.to_nat n1; Z.to_nat n2; 3%nat].

Lemma grid_fails :
  (n0 < 0 \/ n1 < 0 \/ n2 < 0)%Z ->
  generate_3D_grid (n0, n1, n2) (s0, s1, s2) squeeze = None.
Proof.
  intros H. unfold generate_3D_grid.
  destruct (Z.ltb_spec n0 0) as [H0|H0];
    [now rewrite axis_coord_negative|].
  destruct (axis_coord_returns n0 s0 H0) as (c0 & -> & _). cbn [bind].
  destruct (Z.ltb_spec n1 0) as [H1|H1];
    [now rewrite axis_coord_negative|].
  destruct (axis_coord_returns n1 s1 H1) as (c1 & -> & _). cbn [bind].
  rewrite axis_coord_negative by lia. reflexivity.
Qed.

Lemma grid_returns :
  (0 <= n0)%Z -> (0 <= n1)%Z -> (0 <= n2)%Z ->
  exists grid,
    generate_3D_grid (n0, n1, n2) (s0, s1, s2) squeeze = Some grid
    /\ shape grid = (if squeeze then filter not_one full_shape else full_shape)
    /\ wf grid
    /\ forall i0 i1 i2 k,
         in_bounds full_shape [i0; i1; i2; k] = true ->
         exists v,
           getitem grid (if squeeze
                         then squeeze_index full_shape [i0; i1; i2; k]
                         else [i0; i1; i2; k]) = Some v
           /\ v == centred_sample (nth k [n0; n1; n2] 0%Z) (nth k [s0; s1; s2] 0)
                     (nth k [i0; i1; i2] 0%nat)
           /\ (nth k [n0; n1; n2] 0%Z = 1%Z -> v = 0).
Proof.
  intros H0 H1 H2. unfold generate_3D_grid.
  destruct (axis_coord_returns n0 s0 H0) as (c0 & -> & L0 & Z0 & V0).
  destruct (axis_coord_returns n1 s1 H1) as (c1 & -> & L1 & Z1 & V1).
  destruct (axis_coord_returns n2 s2 H2) as (c2 & -> & L2 & Z2 & V2).
  cbn [bind].
  destruct (stack_meshgrid c0 c1 c2) as (g & Hg & Hs & Hwf & Hv).
  cbn zeta in Hs, Hv. rewrite L0, L1, L2 in Hs, Hv. fold full_shape in Hs, Hv.
  destruct (meshgrid_ij [c0; c1; c2]) as [m|]; [|discriminate].
  cbn [bind] in Hg |- *. rewrite Hg. cbn [bind].
  assert (Hwf' : wf (if squeeze then Np.squeeze g else g)).
  { destruct squeeze; [|assumption].
    unfold wf, Np.squeeze in *. cbn [data shape].
    fold not_one. rewrite size_squeezed. exact Hwf. }
  eexists. split; [reflexivity|].
  split; [destruct squeeze; [unfold Np.squeeze; cbn [shape]; now rewrite Hs|exact Hs]|].
  split; [exact Hwf'|].
  intros i0 i1 i2 k Hin.
  assert (Hb : (i0 < Z.to_nat n0 /\ i1 < Z.to_nat n1 /\ i2 < Z.to_nat n2 /\ k < 3)%nat).
  { unfold full_shape in Hin. cbn [in_bounds] in Hin.
    rewrite !andb_true_iff, !Nat.ltb_lt in Hin. lia. }
  destruct Hb as (B0 & B1 & B2 & Bk).
  exists (flat g (ravel full_shape [i0; i1; i2; k])). split.
  - destruct squeeze.
    + destruct (squeeze_index_ok _ _ Hin) as [Hsb Hsr].
      rewrite getitem_flat; [|exact Hwf'|].
      * unfold Np.squeeze at 2. cbn [shape]. fold not_one.
        rewrite Hs, Hsr. reflexivity.
      * unfold Np.squeeze. cbn [shape]. fold not_one. now rewrite Hs.
    + rewrite getitem_flat; [now rewrite Hs|exact Hwf|now rewrite Hs].
  - rewrite Hv by assumption.
    destruct k as [|[|[|k]]]; [| | |lia]; cbn [nth]; split; auto;
      intros ->; [rewrite Z0|rewrite Z1|rewrite Z2]; auto;
      match goal with
      | H : (?i < Z.to_nat 1)%nat |- _ =>
          assert (i = 0%nat) as -> by (simpl in H; lia)
      end; reflexivity.
Qed.

End Grid.

(** ** The grid generator: claims *)

(** C5 (fails on the code).  The 1-D and 2-D generators call the 3-D one
    with its default [squeeze=True], which also drops the caller's own axes of
    length 1: a 1-D grid of one point has shape [(3,)], not [(1, 3)], and a
    2-D grid of [(1, n)] points, [n >= 2], has shape [(n, 3)], not
    [(1, n, 3)]. *)
Theorem derived_grids_lose_unit_axes :
  (forall s, exists grid,
      generate_1D_grid 1 s = Some grid /\ shape grid = [3%nat])
  /\ (forall n sx sy, (2 <= n)%Z -> exists grid,
        generate_2D_grid (1%Z, n) (sx, sy) = Some grid
        /\ shape grid = [Z.to_nat n; 3%nat]).
Proof.
  split.
  - intros s. unfold generate_1D_grid.
    destruct (grid_returns 1 1 1 1 1 s true) as (g & Hg & Hs & _); try lia.
    exists g. split; [exact Hg|]. rewrite Hs. reflexivity.
  - intros n sx sy Hn. unfold generate_2D_grid. cbn [fst snd].
    destruct (grid_returns 1 n 1 sx sy 1 true) as (g & Hg & Hs & _); try lia.
    exists g. split; [exact Hg|]. rewrite Hs.
    cbn [filter]. change (not_one (Z.to_nat 1)) with false.
    change (not_one 3) with true.
    replace (not_one (Z.to_nat n)) with true; [reflexivity|].
    symmetry. unfold not_one. apply negb_true_iff, Nat.eqb_neq. lia.
Qed.

(** With two points or more on every requested axis the derived generators
    do return the documented shapes. *)
Lemma derived_grids_shape :
  (forall m s, (2 <= m)%Z -> exists grid,
      generate_1D_grid m s = Some grid /\ shape grid = [Z.to_nat m; 3%nat])
  /\ (forall m n sx sy, (2 <= m)%Z -> (2 <= n)%Z -> exists grid,
        generate_2D_grid (m, n) (sx, sy) = Some grid
        /\ shape grid = [Z.to_nat m; Z.to_nat n; 3%nat]).
Proof.
  assert (E : forall k, (2 <= k)%Z -> not_one (Z.to_nat k) = true).
  { intros k Hk. unfold not_one. apply negb_true_iff, Nat.eqb_neq. lia. }
  split.
  - intros m s Hm. unfold generate_1D_grid.
    destruct (grid_returns 1 1 m 1 1 s true) as (g & Hg & Hs & _); try lia.
    exists g. split; [exact Hg|]. rewrite Hs.
    cbn [filter]. change (not_one (Z.to_nat 1)) with false.
    change (not_one 3) with true. now rewrite E.
  - intros m n sx sy Hm Hn. unfold generate_2D_grid. cbn [fst snd].
    destruct (grid_returns m n 1 sx sy 1 true) as (g & Hg & Hs & _); try lia.
    exists g. split; [exact Hg|]. rewrite Hs.
    cbn [filter]. change (not_one (Z.to_nat 1)) with false.
    change (not_one 3) with true. now rewrite !E.
Qed.

Lemma derived_grids_lose_unit_axes_witness :
  exists grid,
    generate_2D_grid (1, 4)%Z (1, 1) = Some grid /\ shape grid = [4; 3]%nat.
Proof.
  destruct (proj2 derived_grids_lose_unit_axes 4%Z 1 1) as (g & Hg & Hs).
  - lia.
  - exists g. split; [exact Hg|exact Hs].
Defined.

(** C6 (counterexamples).  A zero in the shape gives an empty grid, and a
    zero or negative spacing gives a grid: nothing is raised. *)
Lemma nonpositive_shape_or_spacing_returns :
  generate_3D_grid (0, 3, 1)%Z (1, 2, 1) true <> None
  /\ generate_3D_grid (2, 2, 2)%Z (0, 1, 1) true <> None
  /\ generate_3D_grid (2, 2, 2)%Z (-1, 1, 1) true <> None.
Proof. repeat split; vm_compute; discriminate. Qed.

(** C6 (amended).  The generator validates nothing itself.  It fails exactly
    when an entry of the shape is negative, which [np.linspace] rejects; an
    entry 0 and any spacing are accepted. *)
Theorem grid_fails_iff_negative_shape
    (n0 n1 n2 : Z) (s0 s1 s2 : Q) (squeeze : bool) :
  generate_3D_grid (n0, n1, n2) (s0, s1, s2) squeeze = None
  <-> (n0 < 0 \/ n1 < 0 \/ n2 < 0)%Z.
Proof.
  split.
  - intros H.
    destruct (Z.ltb_spec n0 0); [now left|].
    destruct (Z.ltb_spec n1 0); [now right; left|].
    destruct (Z.ltb_spec n2 0); [now right; right|].
    destruct (grid_returns n0 n1 n2 s0 s1 s2 squeeze) as (g & Hg & _); try lia.
    rewrite Hg in H. discriminate.
  - apply grid_fails.
Qed.

Lemma grid_fails_iff_negative_shape_witness :
  generate_3D_grid (-1, 2, 2)%Z (1, 1, 1) true = None.
Proof.
  apply (proj2 (grid_fails_iff_negative_shape (-1) 2 2 1 1 1 true)).
  left. lia.
Defined.

(** * Further properties of the sampler *)

(** ** Exchanging two axes, both ways *)

Lemma in_bounds_swap_both (i j : nat) (s idx : list nat) :
  (i < length s)%nat -> (j < length s)%nat ->
  in_bounds s idx = true ->
  in_bounds (swap_nth i j s) (swap_nth i j idx) = true.
Proof.
  intros Hi Hj H. apply in_bounds_nth in H. destruct H as [Hl Hk].
  apply in_bounds_nth. rewrite !length_swap_nth. split; [assumption|].
  intros k Hlt. rewrite !nth_swap_nth by lia.
  apply Hk. now apply transp_lt.
Qed.

Lemma swap_nth_invol (i j : nat) (l : list nat) :
  (i < length l)%nat -> (j < length l)%nat ->
  swap_nth i j (swap_nth i j l) = l.
Proof.
  intros Hi Hj. apply (nth_ext _ _ 0%nat 0%nat).
  - now rewrite !length_swap_nth.
  - intros k Hk. rewrite !length_swap_nth in Hk.
    rewrite nth_swap_nth by (now rewrite length_swap_nth).
    rewrite nth_swap_nth by (now apply transp_lt).
    now rewrite transp_invol.
Qed.

(** ** The pose stage on empty input *)

Lemma stack_nil (axis : nat) : stack [] axis = None.
Proof. reflexivity. Qed.

Lemma placement_no_orientation (sampling_grid positions : ndarray) :
  generate_sampling_coordinates sampling_grid positions [] = None.
Proof.
  unfold generate_sampling_coordinates.
  destruct (reshape sampling_grid [-1; 3]%Z); reflexivity.
Qed.

Lemma placement_empty_grid (sampling_grid positions : ndarray)
    (orientations : list Rotation) :
  size (shape sampling_grid) = 0%nat ->
  generate_sampling_coordinates sampling_grid positions orientations = None.
Proof.
  intros H0. unfold generate_sampling_coordinates.
  destruct (reshape sampling_grid [-1; 3]%Z) as [gc|]; [|reflexivity].
  cbn [bind].
  destruct (rotate_all gc orientations) as [rotated|]; [|reflexivity].
  cbn [bind].
  destruct (stack rotated 1) as [stacked|]; [|reflexivity].
  cbn [bind].
  destruct (add stacked positions) as [shifted|]; [|reflexivity].
  cbn [bind].
  rewrite reshape_infer_first, H0. reflexivity.
Qed.

(** ** Both stages, for a grid of any number of axes *)

Lemma pipeline_entries
    (spline_value : ndarray -> Z -> list Q -> Q)
    (volume sampling_grid positions : ndarray) (orientations : list Rotation)
    (order : Z) (G : list nat) :
  ndim volume = 3%nat -> (0 <= order <= 5)%Z ->
  wf sampling_grid -> shape sampling_grid = G ++ [3%nat] -> size G <> 0%nat ->
  orientations <> [] ->
  shape positions = [length orientations; 3%nat] ->
  exists coordinates sampled,
    generate_sampling_coordinates sampling_grid positions orientations
      = Some coordinates
    /\ sample_volume_at_coordinates spline_value volume coordinates order
      = Some sampled
    /\ wf sampled
    /\ shape sampled = swap_nth (length G) 0 (G ++ [length orientations])
    /\ forall i js,
         (i < length orientations)%nat -> in_bounds G js = true ->
         getitem sampled (swap_nth (length G) 0 (js ++ [i])) =
         Some (spline_value volume order
                 (coords_of
                    (vadd (apply_vec (nth i orientations identity)
                                     (row (data sampling_grid) (ravel G js)))
                          (row (data positions) i)))).
Proof.
  intros Hv Ho Hwf Hs HN Hne Hp.
  set (B := length orientations) in *.
  assert (HB : B <> 0%nat) by (subst B; destruct orientations; simpl; congruence).
  assert (Hd : broadcast_dim B B = Some B) by (apply broadcast_dim_Some; lia).
  destruct (placement_rows sampling_grid positions orientations G B
              Hwf Hs Hp B Hne Hd HN) as (c & Hc & Hsc & Hwfc & Hrow).
  destruct (sample_returns spline_value volume c order B G Hwfc Hsc Hv Ho)
    as (r & Hr & Hwfr & Hsr & Hget).
  exists c, r. repeat split; auto.
  intros i js Hi Hjs.
  assert (Hlen : length js = length G) by (now apply in_bounds_length).
  assert (Hin : in_bounds (G ++ [B]) (js ++ [i]) = true).
  { rewrite in_bounds_app by assumption. rewrite Hjs. cbn [in_bounds andb].
    replace (i <? B)%nat with true by (symmetry; now apply Nat.ltb_lt).
    reflexivity. }
  assert (HlG : (length G < length (G ++ [B]))%nat)
    by (rewrite length_app; simpl; lia).
  assert (H0G : (0 < length (G ++ [B]))%nat)
    by (rewrite length_app; simpl; lia).
  rewrite Hget by (rewrite Hsr; now apply in_bounds_swap_both).
  rewrite swap_nth_invol
    by (rewrite length_app, Hlen; simpl; lia).
  rewrite ravel_app by assumption.
  change (size [B]) with (B * 1)%nat. change (ravel [B] [i]) with (i * 1 + 0)%nat.
  replace (ravel G js * (B * 1) + (i * 1 + 0))%nat with (ravel G js * B + i)%nat
    by lia.
  rewrite Hrow by (auto using ravel_lt).
  fold B.
  replace (if (B =? 1)%nat then 0%nat else i) with i
    by (destruct (Nat.eqb_spec B 1); lia).
  reflexivity.
Qed.

(** ** The points of a grid, in the order of its buffer *)

Lemma grid_rows (n0 n1 n2 : Z) (s0 s1 s2 : Q) (squeeze : bool) :
  (0 <= n0)%Z -> (0 <= n1)%Z -> (0 <= n2)%Z ->
  let full_shape := [Z.to_nat n0; Z.to_nat n1; Z.to_nat n2; 3%nat] in
  exists grid,
    generate_3D_grid (n0, n1, n2) (s0, s1, s2) squeeze = Some grid
    /\ shape grid = (if squeeze then filter not_one full_shape else full_shape)
    /\ wf grid
    /\ forall i0 i1 i2,
         (i0 < Z.to_nat n0)%nat -> (i1 < Z.to_nat n1)%nat ->
         (i2 < Z.to_nat n2)%nat ->
         exists x y z,
           row (data grid) ((i0 * Z.to_nat n1 + i1) * Z.to_nat n2 + i2)
             = (x, y, z)
           /\ (x == centred_sample n0 s0 i0 /\ (n0 = 1%Z -> x = 0))
           /\ (y == centred_sample n1 s1 i1 /\ (n1 = 1%Z -> y = 0))
           /\ (z == centred_sample n2 s2 i2 /\ (n2 = 1%Z -> z = 0)).
Proof.
  intros H0 H1 H2 full_shape.
  destruct (grid_returns n0 n1 n2 s0 s1 s2 squeeze H0 H1 H2)
    as (g & Hg & Hs & Hwf & Hv).
  fold full_shape in Hs, Hv.
  exists g. repeat split; auto.
  intros i0 i1 i2 B0 B1 B2.
  assert (Hflat : forall k, (k < 3)%nat ->
            exists v, nth (3 * ((i0 * Z.to_nat n1 + i1) * Z.to_nat n2 + i2) + k)
                          (data g) 0 = v
              /\ v == centred_sample (nth k [n0; n1; n2] 0%Z)
                        (nth k [s0; s1; s2] 0) (nth k [i0; i1; i2] 0%nat)
              /\ (nth k [n0; n1; n2] 0%Z = 1%Z -> v = 0)).
  { intros k Hk.
    assert (Hin : in_bounds full_shape [i0; i1; i2; k] = true)
      by (unfold full_shape; in_bounds_lia).
    destruct (Hv i0 i1 i2 k Hin) as (v & Hget & Hval & Hone).
    exists v. split; [|split; assumption].
    apply getitem_Some in Hget. destruct Hget as [_ ->].
    unfold flat. apply (f_equal (fun p => nth p (data g) 0)).
    rewrite Hs. destruct squeeze.
    - destruct (squeeze_index_ok _ _ Hin) as [_ ->].
      unfold full_shape. simpl. lia.
    - unfold full_shape. simpl. lia. }
  destruct (Hflat 0%nat) as (x & Hx & Vx & Ox); [lia|].
  destruct (Hflat 1%nat) as (y & Hy & Vy & Oy); [lia|].
  destruct (Hflat 2%nat) as (z & Hz & Vz & Oz); [lia|].
  exists x, y, z. cbn [nth] in *.
  split; [|repeat split; assumption].
  unfold row. rewrite Nat.add_0_r in Hx. now rewrite Hx, Hy, Hz.
Qed.

(** The same, with the coordinate arrays of the three axes. *)
Lemma grid_rows_axes (n0 n1 n2 : Z) (s0 s1 s2 : Q) (squeeze : bool) :
  (0 <= n0)%Z -> (0 <= n1)%Z -> (0 <= n2)%Z ->
  exists grid c0 c1 c2,
    generate_3D_grid (n0, n1, n2) (s0, s1, s2) squeeze = Some grid
    /\ (length (data c0) = Z.to_nat n0 /\ (n0 = 1%Z -> data c0 = [0]))
    /\ (length (data c1) = Z.to_nat n1 /\ (n1 = 1%Z -> data c1 = [0]))
    /\ (length (data c2) = Z.to_nat n2 /\ (n2 = 1%Z -> data c2 = [0]))
    /\ forall i0 i1 i2,
         (i0 < Z.to_nat n0)%nat -> (i1 < Z.to_nat n1)%nat ->
         (i2 < Z.to_nat n2)%nat ->
         row (data grid) ((i0 * Z.to_nat n1 + i1) * Z.to_nat n2 + i2)
         = (nth i0 (data c0) 0, nth i1 (data c1) 0, nth i2 (data c2) 0).
Proof.
  intros H0 H1 H2. unfold generate_3D_grid.
  destruct (axis_coord_returns n0 s0 H0) as (c0 & -> & L0 & Z0 & _).
  destruct (axis_coord_returns n1 s1 H1) as (c1 & -> & L1 & Z1 & _).
  destruct (axis_coord_returns n2 s2 H2) as (c2 & -> & L2 & Z2 & _).
  cbn [bind].
  destruct (stack_meshgrid c0 c1 c2) as (g & Hg & Hs & Hwf & Hv).
  cbn zeta in Hs, Hv. rewrite L0, L1, L2 in Hs, Hv.
  destruct (meshgrid_ij [c0; c1; c2]) as [m|]; [|discriminate].
  cbn [bind] in Hg |- *. rewrite Hg. cbn [bind].
  exists (if squeeze then Np.squeeze g else g), c0, c1, c2.
  split; [reflexivity|]. repeat split; auto.
  intros i0 i1 i2 B0 B1 B2.
  assert (Hd : data (if squeeze then Np.squeeze g else g) = data g)
    by (destruct squeeze; reflexivity).
  rewrite Hd. unfold row.
  pose proof (Hv i0 i1 i2 0%nat B0 B1 B2 ltac:(lia)) as E0.
  pose proof (Hv i0 i1 i2 1%nat B0 B1 B2 ltac:(lia)) as E1.
  pose proof (Hv i0 i1 i2 2%nat B0 B1 B2 ltac:(lia)) as E2.
  cbn [nth] in E0, E1, E2. unfold flat in E0, E1, E2.
  rewrite <- E0, <- E1, <- E2.
  f_equal; [f_equal|];
    (apply (f_equal (fun p => nth p (data g) 0)); simpl; lia).
Qed.

(** ** The grid generators *)

(** X2.  A 2-D grid is a lattice in the plane [z = 0]: for [m, n >= 0] the
    generator returns [m * n] points, point [a * n + b] of the buffer being
    [(x_a, y_b, 0)], where [x_a] depends on [a] alone, [y_b] on [b] alone, and
    the third coordinate is the number 0; its shape is [(m, n, 3)] less the
    axes of length 1. *)
Theorem generate_2D_grid_points (m n : Z) (sx sy : Q) :
  (0 <= m)%Z -> (0 <= n)%Z ->
  exists grid xs ys,
    generate_2D_grid (m, n) (sx, sy) = Some grid
    /\ shape grid = filter not_one [Z.to_nat m; Z.to_nat n] ++ [3%nat]
    /\ wf grid
    /\ length xs = Z.to_nat m /\ length ys = Z.to_nat n
    /\ forall a b, (a < Z.to_nat m)%nat -> (b < Z.to_nat n)%nat ->
         row (data grid) (a * Z.to_nat n + b) = (nth a xs 0, nth b ys 0, 0).
Proof.
  intros Hm Hn. unfold generate_2D_grid. cbn [fst snd].
  destruct (grid_returns m n 1 sx sy 1 true) as (g & Hg & Hs & Hwf & _);
    try lia.
  destruct (grid_rows_axes m n 1 sx sy 1 true)
    as (g' & c0 & c1 & c2 & Hg' & [L0 _] & [L1 _] & [_ Z2] & Hrow); try lia.
  rewrite Hg in Hg'. injection Hg' as <-.
  exists g, (data c0), (data c1). split; [exact Hg|].
  split; [|split; [exact Hwf|split; [exact L0|split; [exact L1|]]]].
  - rewrite Hs. cbn [filter app]. change (not_one (Z.to_nat 1)) with false.
    change (not_one 3) with true.
    destruct (not_one (Z.to_nat m)), (not_one (Z.to_nat n)); reflexivity.
  - intros a b Ha Hb.
    specialize (Hrow a b 0%nat Ha Hb ltac:(simpl; lia)).
    change (Z.to_nat 1) with 1%nat in Hrow.
    rewrite Nat.mul_1_r, Nat.add_0_r, (Z2 eq_refl) in Hrow.
    exact Hrow.
Qed.

Lemma generate_2D_grid_points_witness :
  exists grid,
    generate_2D_grid (1, 4)%Z (1, 1) = Some grid
    /\ shape grid = [4; 3]%nat
    /\ exists x y, row (data grid) 2 = (x, y, 0).
Proof.
  destruct (generate_2D_grid_points 1 4 1 1)
    as (g & xs & ys & Hg & Hs & _ & _ & _ & Hrow); [lia|lia|].
  exists g. split; [exact Hg|]. split; [exact Hs|].
  exists (nth 0 xs 0), (nth 2 ys 0).
  apply (Hrow 0%nat 2%nat); simpl; lia.
Defined.

(** X3.  A 1-D grid lies on the z axis: for [m >= 0] the generator returns
    [m] points, each [(0, 0, z)] with the numbers 0 as its first two
    coordinates; its shape is [(m, 3)], except for [m = 1], where it is
    [(3,)]. *)
Theorem generate_1D_grid_points (m : Z) (s : Q) :
  (0 <= m)%Z ->
  exists grid,
    generate_1D_grid m s = Some grid
    /\ shape grid = (if (m =? 1)%Z then [3%nat] else [Z.to_nat m; 3%nat])
    /\ wf grid
    /\ forall i, (i < Z.to_nat m)%nat ->
         exists z, row (data grid) i = (0, 0, z).
Proof.
  intros Hm. unfold generate_1D_grid.
  destruct (grid_returns 1 1 m 1 1 s true) as (g & Hg & Hs & Hwf & _); try lia.
  destruct (grid_rows_axes 1 1 m 1 1 s true)
    as (g' & c0 & c1 & c2 & Hg' & [_ Z0] & [_ Z1] & _ & Hrow); try lia.
  rewrite Hg in Hg'. injection Hg' as <-.
  exists g. split; [exact Hg|]. split; [|split; [exact Hwf|]].
  - rewrite Hs. cbn [filter]. change (not_one (Z.to_nat 1)) with false.
    change (not_one 3) with true. unfold not_one.
    destruct (Z.eqb_spec m 1) as [->|Hne]; [reflexivity|].
    replace (Z.to_nat m =? 1)%nat with false
      by (symmetry; apply Nat.eqb_neq; lia).
    reflexivity.
  - intros i Hi.
    specialize (Hrow 0%nat 0%nat i ltac:(simpl; lia) ltac:(simpl; lia) Hi).
    change (Z.to_nat 1) with 1%nat in Hrow. cbn [Nat.mul Nat.add] in Hrow.
    rewrite (Z0 eq_refl), (Z1 eq_refl) in Hrow.
    exists (nth i (data c2) 0). exact Hrow.
Qed.

Lemma generate_1D_grid_points_witness :
  exists grid,
    generate_1D_grid 3 2 = Some grid /\ shape grid = [3; 3]%nat.
Proof.
  destruct (generate_1D_grid_points 3 2) as (g & Hg & Hs & _); [lia|].
  exists g. split; [exact Hg|exact Hs].
Defined.

(** ** The pose stage *)

(** X4.  The layout of the result for [B >= 1] poses on a non-empty grid of
    [N] points: the shape is [(B, *G, 3)], and the point at batch index [i]
    and grid index [js] is grid point [m / B] under pose [m mod B], where
    [m = i * N + ravel G js] is its rank in the buffer. *)
Theorem poses_interleaved_layout
    (sampling_grid positions : ndarray) (orientations : list Rotation)
    (G : list nat) :
  wf sampling_grid -> shape sampling_grid = G ++ [3%nat] -> size G <> 0%nat ->
  orientations <> [] ->
  shape positions = [length orientations; 3%nat] ->
  exists r,
    generate_sampling_coordinates sampling_grid positions orientations = Some r
    /\ shape r = length orientations :: G ++ [3%nat]
    /\ forall i js, (i < length orientations)%nat -> in_bounds G js = true ->
         let m := (i * size G + ravel G js)%nat in
         let b := (m mod length orientations)%nat in
         point_at r (i :: js) =
         Some (vadd (apply_vec (nth b orientations identity)
                               (row (data sampling_grid) (m / length orientations)))
                    (row (data positions) b)).
Proof.
  intros Hwf Hs HN Hne Hp.
  set (B := length orientations) in *.
  assert (HB : B <> 0%nat) by (subst B; destruct orientations; simpl; congruence).
  assert (Hd : broadcast_dim B B = Some B) by (apply broadcast_dim_Some; lia).
  destruct (placement_point_at sampling_grid positions orientations G B
              Hwf Hs Hp B Hne Hd HN) as (r & Hr & Hsr & Hpt).
  exists r. repeat split; auto.
  intros i js Hi Hjs m b. specialize (Hpt i js Hi Hjs). cbn zeta in Hpt.
  fold B m b in Hpt.
  replace (if (B =? 1)%nat then 0%nat else b) with b in Hpt; [exact Hpt|].
  destruct (Nat.eqb_spec B 1) as [E|E]; [|reflexivity].
  subst b. rewrite E. now rewrite Nat.mod_1_r.
Qed.

Lemma poses_interleaved_layout_witness :
  exists r,
    generate_sampling_coordinates grid_two_points two_positions
      [identity; rot_z90] = Some r
    /\ shape r = [2; 2; 3]%nat.
Proof.
  destruct (poses_interleaved_layout grid_two_points two_positions
              [identity; rot_z90] [2%nat]) as (r & Hr & Hs & _).
  - reflexivity.
  - reflexivity.
  - simpl; lia.
  - discriminate.
  - reflexivity.
  - exists r. split; [exact Hr|exact Hs].
Defined.

(** X5.  With a single pose, or on a grid of a single point, the result is
    what the docstring describes: batch element [i] holds, at grid index
    [js], the grid point [js] rotated by orientation [i] and shifted by
    position [i]. *)
Theorem single_pose_or_point_is_batch_major
    (sampling_grid positions : ndarray) (orientations : list Rotation)
    (G : list nat) :
  wf sampling_grid -> shape sampling_grid = G ++ [3%nat] ->
  orientations <> [] ->
  shape positions = [length orientations; 3%nat] ->
  (length orientations = 1%nat /\ size G <> 0%nat) \/ size G = 1%nat ->
  exists r,
    generate_sampling_coordinates sampling_grid positions orientations = Some r
    /\ shape r = length orientations :: G ++ [3%nat]
    /\ forall i js, (i < length orientations)%nat -> in_bounds G js = true ->
         point_at r (i :: js) =
         Some (vadd (apply_vec (nth i orientations identity)
                               (row (data sampling_grid) (ravel G js)))
                    (row (data positions) i)).
Proof.
  intros Hwf Hs Hne Hp Hdeg.
  set (B := length orientations) in *.
  assert (HB : B <> 0%nat) by (subst B; destruct orientations; simpl; congruence).
  assert (HN : size G <> 0%nat) by lia.
  assert (Hd : broadcast_dim B B = Some B) by (apply broadcast_dim_Some; lia).
  destruct (placement_point_at sampling_grid positions orientations G B
              Hwf Hs Hp B Hne Hd HN) as (r & Hr & Hsr & Hpt).
  exists r. repeat split; auto.
  intros i js Hi Hjs. specialize (Hpt i js Hi Hjs). cbn zeta in Hpt.
  fold B in Hpt. pose proof (ravel_lt _ _ Hjs) as Hj.
  rewrite Hpt. destruct Hdeg as [[HB1 _]|HN1].
  - assert (i = 0%nat) as -> by lia. rewrite HB1.
    cbn [Nat.eqb Nat.mul Nat.add]. now rewrite Nat.div_1_r.
  - assert (ravel G js = 0%nat) as -> by lia. rewrite HN1.
    rewrite Nat.mul_1_r, Nat.add_0_r, Nat.mod_small, Nat.div_small by lia.
    destruct (Nat.eqb_spec B 1) as [E|E]; [|reflexivity].
    assert (i = 0%nat) as -> by lia. reflexivity.
Qed.

Lemma single_pose_or_point_is_batch_major_witness :
  exists r,
    generate_sampling_coordinates grid_two_points one_position [rot_z90] = Some r
    /\ shape r = [1; 2; 3]%nat.
Proof.
  destruct (single_pose_or_point_is_batch_major grid_two_points one_position
              [rot_z90] [2%nat]) as (r & Hr & Hs & _).
  - reflexivity.
  - reflexivity.
  - discriminate.
  - reflexivity.
  - left. simpl. split; [reflexivity|lia].
  - exists r. split; [exact Hr|exact Hs].
Defined.

(** X6.  One orientation and [P] positions: nothing is raised either; the
    single rotated grid is broadcast against the positions, the result has
    shape [(P, *G, 3)] and the point of rank [m] of its buffer is the rotated
    grid point [m / P] plus position [m mod P]. *)
Theorem single_orientation_is_broadcast
    (sampling_grid positions : ndarray) (orientation : Rotation)
    (G : list nat) (P : nat) :
  wf sampling_grid -> shape sampling_grid = G ++ [3%nat] -> size G <> 0%nat ->
  shape positions = [P; 3%nat] ->
  exists r,
    generate_sampling_coordinates sampling_grid positions [orientation] = Some r
    /\ shape r = P :: G ++ [3%nat]
    /\ forall i js, (i < P)%nat -> in_bounds G js = true ->
         let m := (i * size G + ravel G js)%nat in
         point_at r (i :: js) =
         Some (vadd (apply_vec orientation (row (data sampling_grid) (m / P)))
                    (row (data positions) (m mod P))).
Proof.
  intros Hwf Hs HN Hp.
  destruct (placement_point_at sampling_grid positions [orientation] G P
              Hwf Hs Hp P) as (r & Hr & Hsr & Hpt);
    [discriminate|apply broadcast_dim_1_l|assumption|].
  exists r. repeat split; auto.
  intros i js Hi Hjs m. specialize (Hpt i js Hi Hjs). cbn zeta in Hpt.
  fold m in Hpt. cbn [length Nat.eqb nth] in Hpt. rewrite Hpt.
  destruct (Nat.eqb_spec P 1) as [E|E]; [|reflexivity].
  rewrite E. now rewrite Nat.mod_1_r.
Qed.

Lemma single_orientation_is_broadcast_witness :
  exists r,
    generate_sampling_coordinates grid_two_points two_positions [rot_z90] = Some r
    /\ shape r = [2; 2; 3]%nat.
Proof.
  destruct (single_orientation_is_broadcast grid_two_points two_positions
              rot_z90 [2%nat] 2) as (r & Hr & Hs & _).
  - reflexivity.
  - reflexivity.
  - simpl; lia.
  - reflexivity.
  - exists r. split; [exact Hr|exact Hs].
Defined.

(** X7.  Empty input is an error, not an empty result: without any
    orientation [np.stack] has nothing to stack, and on a grid without
    points the last reshape cannot infer the batch dimension. *)
Theorem empty_batch_or_grid_fails
    (sampling_grid positions : ndarray) (orientations : list Rotation) :
  orientations = [] \/ size (shape sampling_grid) = 0%nat ->
  generate_sampling_coordinates sampling_grid positions orientations = None.
Proof.
  intros [->|H0].
  - apply placement_no_orientation.
  - now apply placement_empty_grid.
Qed.

Lemma empty_batch_or_grid_fails_witness :
  generate_sampling_coordinates grid_two_points two_positions [] = None
  /\ generate_sampling_coordinates (mk_ndarray [0; 3]%nat []) two_positions
       [identity; rot_z90] = None.
Proof.
  split.
  - apply (empty_batch_or_grid_fails grid_two_points two_positions []).
    left. reflexivity.
  - apply (empty_batch_or_grid_fails (mk_ndarray [0; 3]%nat []) two_positions
             [identity; rot_z90]).
    right. reflexivity.
Defined.

(** X17 is [zero_grid_single_position] above: an all-zero grid placed with
    one identity pose holds the position at every grid point. *)
Lemma zero_grid_single_position_witness :
  exists r,
    generate_sampling_coordinates zero_grid_two_points one_position [identity]
      = Some r
    /\ shape r = [1; 2; 3]%nat.
Proof.
  destruct (zero_grid_single_position zero_grid_two_points one_position [2%nat])
    as (r & Hr & Hs & _).
  - reflexivity.
  - reflexivity.
  - simpl; lia.
  - intros k. do 7 (destruct k as [|k]; [reflexivity|]). reflexivity.
  - reflexivity.
  - exists r. split; [exact Hr|exact Hs].
Defined.

(** ** The sampling stage *)

(** X8.  The sampling stage on its own, for coordinates of shape
    [(B, g1, ..., gk, 3)]: entry [(i, j2, ..., jk, j1)] of the result is the
    interpolant at the point of rank [ravel G js * B + i] of the coordinate
    buffer (batch index varying fastest), whereas [coordinates[i, js]] is the
    point of rank [i * size G + ravel G js]. *)
Theorem sample_reads_points_batch_fastest
    (spline_value : ndarray -> Z -> list Q -> Q)
    (volume coordinates : ndarray) (order : Z) (B g1 : nat) (G' : list nat) :
  ndim volume = 3%nat -> (0 <= order <= 5)%Z ->
  wf coordinates -> shape coordinates = B :: (g1 :: G') ++ [3%nat] ->
  exists sampled,
    sample_volume_at_coordinates spline_value volume coordinates order
      = Some sampled
    /\ forall i j1 js,
         (i < B)%nat -> in_bounds (g1 :: G') (j1 :: js) = true ->
         getitem sampled (i :: js ++ [j1]) =
         Some (spline_value volume order
                 (coords_of (row (data coordinates)
                               (ravel (g1 :: G') (j1 :: js) * B + i))))
         /\ point_at coordinates (i :: j1 :: js) =
            Some (row (data coordinates)
                    (i * size (g1 :: G') + ravel (g1 :: G') (j1 :: js))).
Proof.
  intros Hv Ho Hwf Hs.
  destruct (sample_returns spline_value volume coordinates order B (g1 :: G')
              Hwf Hs Hv Ho) as (r & Hr & Hwfr & Hsr & Hget).
  cbn [length app] in Hsr, Hget. rewrite swap_first_last in Hsr.
  exists r. split; [exact Hr|].
  intros i j1 js Hi Hjs.
  assert (Hlen : length js = length G').
  { apply in_bounds_length in Hjs. simpl in Hjs. lia. }
  split.
  - assert (Hin : in_bounds (shape r) (i :: js ++ [j1]) = true).
    { rewrite Hsr. cbn [in_bounds]. rewrite in_bounds_app by assumption.
      cbn [in_bounds] in Hjs |- *.
      apply andb_true_iff in Hjs. destruct Hjs as [H1 H2].
      rewrite H1, H2.
      replace (i <? B)%nat with true by (symmetry; now apply Nat.ltb_lt).
      reflexivity. }
    rewrite (Hget _ Hin). rewrite <- Hlen, swap_first_last.
    change (g1 :: G' ++ [B]) with ((g1 :: G') ++ [B]).
    change (j1 :: js ++ [i]) with ((j1 :: js) ++ [i]).
    rewrite ravel_app by (simpl; now f_equal).
    change (size [B]) with (B * 1)%nat.
    change (ravel [B] [i]) with (i * 1 + 0)%nat.
    do 4 f_equal. lia.
  - assert (Hg : forall c, (c < 3)%nat ->
              getitem coordinates ((i :: j1 :: js) ++ [c]) =
              Some (nth (3 * (i * size (g1 :: G') + ravel (g1 :: G') (j1 :: js)) + c)
                        (data coordinates) 0)).
    { intros c Hc.
      assert (Hb : in_bounds (shape coordinates) ((i :: j1 :: js) ++ [c]) = true).
      { rewrite Hs.
        change (B :: (g1 :: G') ++ [3%nat]) with ((B :: g1 :: G') ++ [3%nat]).
        rewrite in_bounds_app by (simpl; now rewrite Hlen).
        change (in_bounds (B :: g1 :: G') (i :: j1 :: js))
          with ((i <? B)%nat && in_bounds (g1 :: G') (j1 :: js)).
        rewrite Hjs. cbn [in_bounds].
        rewrite !andb_true_iff, !Nat.ltb_lt. lia. }
      rewrite getitem_flat by assumption.
      unfold flat. do 2 f_equal. rewrite Hs.
      change (B :: (g1 :: G') ++ [3%nat]) with ((B :: g1 :: G') ++ [3%nat]).
      rewrite ravel_app by (simpl; now rewrite Hlen).
      change (ravel (B :: g1 :: G') (i :: j1 :: js))
        with (i * size (g1 :: G') + ravel (g1 :: G') (j1 :: js))%nat.
      simpl; lia. }
    unfold point_at. rewrite !Hg by lia. cbn [bind].
    unfold row. rewrite Nat.add_0_r. reflexivity.
Qed.

Lemma sample_reads_points_batch_fastest_witness :
  exists sampled,
    sample_volume_at_coordinates coordinate_sum unit_volume coords_2_3_3 3
      = Some sampled
    /\ getitem sampled [1; 2]%nat =
       Some (coordinate_sum unit_volume 3
               (coords_of (row (data coords_2_3_3) 5))).
Proof.
  destruct (sample_reads_points_batch_fastest coordinate_sum unit_volume
              coords_2_3_3 3 2 3 []) as (r & Hr & Hget).
  - reflexivity.
  - lia.
  - reflexivity.
  - reflexivity.
  - exists r. split; [exact Hr|].
    destruct (Hget 1%nat 2%nat []) as [H _]; [lia|reflexivity|].
    exact H.
Defined.

(** X9.  Coordinates with fewer than two axes cannot be unpacked into
    [batch, *grid_shape, _]: the call fails whatever the volume and order. *)
Theorem sample_needs_two_axes
    (spline_value : ndarray -> Z -> list Q -> Q)
    (volume coordinates : ndarray) (order : Z) :
  (ndim coordinates < 2)%nat ->
  sample_volume_at_coordinates spline_value volume coordinates order = None.
Proof.
  unfold ndim, sample_volume_at_coordinates. intros H.
  destruct (shape coordinates) as [|b [|t rest]]; simpl in H; try lia;
    reflexivity.
Qed.

Lemma sample_needs_two_axes_witness :
  sample_volume_at_coordinates coordinate_sum unit_volume
    (mk_ndarray [3%nat] [1; 2; 3]) 3 = None.
Proof.
  apply (sample_needs_two_axes coordinate_sum unit_volume
           (mk_ndarray [3%nat] [1; 2; 3]) 3).
  unfold ndim; simpl; lia.
Defined.

(** X10.  The spline order is handed to the interpolation backend as it is,
    and the backend rejects an order outside 0..5: the call then fails for
    every volume and every coordinate array. *)
Theorem sample_rejects_bad_order
    (spline_value : ndarray -> Z -> list Q -> Q)
    (volume coordinates : ndarray) (order : Z) :
  (order < 0 \/ 5 < order)%Z ->
  sample_volume_at_coordinates spline_value volume coordinates order = None.
Proof.
  intros Ho. unfold sample_volume_at_coordinates.
  destruct (unpack_shape (shape coordinates)) as [[[batch grid_shape] t]|];
    [|reflexivity].
  cbn [bind].
  destruct (reshape coordinates [-1; 3]%Z) as [c|]; [|reflexivity].
  cbn [bind]. unfold map_coordinates.
  replace ((0 <=? order) && (order <=? 5))%Z with false; [reflexivity|].
  symmetry. apply andb_false_iff.
  destruct Ho; [left; apply Z.leb_gt|right; apply Z.leb_gt]; lia.
Qed.

Lemma sample_rejects_bad_order_witness :
  sample_volume_at_coordinates coordinate_sum unit_volume coords_2_3_3 6 = None.
Proof.
  apply (sample_rejects_bad_order coordinate_sum unit_volume coords_2_3_3 6).
  right. lia.
Defined.

(** ** The samplers built on the two stages *)

Lemma pipeline_points
    (spline_value : ndarray -> Z -> list Q -> Q)
    (volume sampling_grid positions : ndarray) (orientations : list Rotation)
    (order : Z) (g1 : nat) (G' : list nat) :
  ndim volume = 3%nat -> (0 <= order <= 5)%Z ->
  wf sampling_grid -> shape sampling_grid = (g1 :: G') ++ [3%nat] ->
  size (g1 :: G') <> 0%nat ->
  orientations <> [] ->
  shape positions = [length orientations; 3%nat] ->
  exists coordinates sampled,
    generate_sampling_coordinates sampling_grid positions orientations
      = Some coordinates
    /\ sample_volume_at_coordinates spline_value volume coordinates order
      = Some sampled
    /\ wf sampled
    /\ shape sampled = length orientations :: G' ++ [g1]
    /\ forall i j1 js orientation g p,
         nth_error orientations i = Some orientation ->
         point_at sampling_grid (j1 :: js) = Some g ->
         point_at positions [i] = Some p ->
         getitem sampled (i :: js ++ [j1]) =
         Some (spline_value volume order
                 (coords_of (vadd (apply_vec orientation g) p))).
Proof.
  intros Hv Ho Hwf Hs HN Hne Hp.
  destruct (pipeline_entries spline_value volume sampling_grid positions
              orientations order (g1 :: G') Hv Ho Hwf Hs HN Hne Hp)
    as (c & r & Hc & Hr & Hwfr & Hsr & Hget).
  cbn [length app] in Hsr. rewrite swap_first_last in Hsr.
  exists c, r. repeat split; auto.
  intros i j1 js orientation g p HR Hg Hpos.
  apply (point_at_row sampling_grid (g1 :: G')) in Hg; [|exact Hs].
  apply (point_at_row positions [length orientations]) in Hpos; [|exact Hp].
  destruct Hg as [Hjs ->], Hpos as [Hi ->].
  assert (Hlen : length js = length G').
  { apply in_bounds_length in Hjs. simpl in Hjs. lia. }
  assert (HiB : (i < length orientations)%nat).
  { simpl in Hi. apply andb_true_iff in Hi. destruct Hi as [Hi _].
    now apply Nat.ltb_lt in Hi. }
  specialize (Hget i (j1 :: js) HiB Hjs).
  cbn [length app] in Hget. rewrite <- Hlen, swap_first_last in Hget.
  rewrite Hget. rewrite (nth_error_nth _ _ identity HR).
  change (ravel [length orientations] [i]) with (i * 1 + 0)%nat.
  replace (i * 1 + 0)%nat with i by lia. reflexivity.
Qed.

(** X11.  [sample_subvolumes] on a grid of [n0 x n1 x n2 >= 1] points and
    [B >= 1] poses: the result has shape [(B, n1, n2, n0)], the first grid
    axis coming last, and its entry [(i, j1, j2, j0)] is the interpolant at
    [orientations[i].apply(grid[j0, j1, j2]) + positions[i]], the grid being
    the unsqueezed 3-D grid of that shape and spacing. *)
Theorem sample_subvolumes_entries
    (spline_value : ndarray -> Z -> list Q -> Q)
    (volume positions : ndarray) (orientations : list Rotation)
    (n0 n1 n2 : Z) (s0 s1 s2 : Q) (order : Z) :
  ndim volume = 3%nat -> (0 <= order <= 5)%Z ->
  (0 < n0)%Z -> (0 < n1)%Z -> (0 < n2)%Z ->
  orientations <> [] ->
  shape positions = [length orientations; 3%nat] ->
  exists grid sampled,
    generate_3D_grid (n0, n1, n2) (s0, s1, s2) false = Some grid
    /\ sample_subvolumes spline_value volume positions orientations
         (n0, n1, n2) (s0, s1, s2) order = Some sampled
    /\ shape sampled =
       [length orientations; Z.to_nat n1; Z.to_nat n2; Z.to_nat n0]
    /\ forall i j0 j1 j2 orientation g p,
         nth_error orientations i = Some orientation ->
         point_at grid [j0; j1; j2] = Some g ->
         point_at positions [i] = Some p ->
         getitem sampled [i; j1; j2; j0] =
         Some (spline_value volume order
                 (coords_of (vadd (apply_vec orientation g) p))).
Proof.
  intros Hv Ho H0 H1 H2 Hne Hp. unfold sample_subvolumes.
  destruct (grid_returns n0 n1 n2 s0 s1 s2 false) as (g & Hg & Hs & Hwf & _);
    try lia.
  rewrite Hg. cbn [bind].
  assert (HN : size [Z.to_nat n0; Z.to_nat n1; Z.to_nat n2] <> 0%nat)
    by (simpl; nia).
  destruct (pipeline_points spline_value volume g positions orientations order
              (Z.to_nat n0) [Z.to_nat n1; Z.to_nat n2] Hv Ho Hwf Hs HN Hne Hp)
    as (c & r & Hc & Hr & _ & Hsr & Hget).
  rewrite Hc. cbn [bind]. rewrite Hr.
  exists g, r. repeat split; auto.
  intros i j0 j1 j2 orientation gp p HR Hgp Hpos.
  exact (Hget i j0 [j1; j2] orientation gp p HR Hgp Hpos).
Qed.

Lemma sample_subvolumes_entries_witness :
  exists sampled,
    sample_subvolumes coordinate_sum unit_volume two_positions
      [identity; rot_z90] (2, 1, 3)%Z (1, 1, 1) 3 = Some sampled
    /\ shape sampled = [2; 1; 3; 2]%nat.
Proof.
  destruct (sample_subvolumes_entries coordinate_sum unit_volume two_positions
              [identity; rot_z90] 2 1 3 1 1 1 3)
    as (g & r & _ & Hr & Hs & _).
  - reflexivity.
  - lia.
  - lia.
  - lia.
  - lia.
  - discriminate.
  - reflexivity.
  - exists r. split; [exact Hr|exact Hs].
Defined.

(** X12.  [sample_subvolumes] fails whenever an entry of the grid shape is
    zero or negative, whatever the volume and the poses: a negative entry is
    rejected by the grid generator, and the empty grid a zero entry gives is
    rejected by the pose stage. *)
Theorem sample_subvolumes_needs_positive_shape
    (spline_value : ndarray -> Z -> list Q -> Q)
    (volume positions : ndarray) (orientations : list Rotation)
    (n0 n1 n2 : Z) (s0 s1 s2 : Q) (order : Z) :
  (n0 <= 0 \/ n1 <= 0 \/ n2 <= 0)%Z ->
  sample_subvolumes spline_value volume positions orientations
    (n0, n1, n2) (s0, s1, s2) order = None.
Proof.
  intros H. unfold sample_subvolumes.
  destruct (Z.ltb_spec n0 0) as [L0|L0];
    [rewrite grid_fails by lia; reflexivity|].
  destruct (Z.ltb_spec n1 0) as [L1|L1];
    [rewrite grid_fails by lia; reflexivity|].
  destruct (Z.ltb_spec n2 0) as [L2|L2];
    [rewrite grid_fails by lia; reflexivity|].
  destruct (grid_returns n0 n1 n2 s0 s1 s2 false L0 L1 L2)
    as (g & Hg & Hs & _).
  rewrite Hg. cbn [bind].
  rewrite placement_empty_grid; [reflexivity|].
  rewrite Hs. simpl. nia.
Qed.

Lemma sample_subvolumes_needs_positive_shape_witness :
  sample_subvolumes coordinate_sum unit_volume two_positions
    [identity; rot_z90] (2, 0, 3)%Z (1, 1, 1) 3 = None.
Proof.
  apply (sample_subvolumes_needs_positive_shape coordinate_sum unit_volume
           two_positions [identity; rot_z90] 2 0 3 1 1 1 3).
  right. left. lia.
Defined.

(** The two stages on a 1-D grid of [T >= 1] points, whose shape is [(T, 3)]
    or, for [T = 1], [(3,)]: in both cases the sample of pose [i] at grid
    point [k] has rank [i * T + k] in the result. *)
Lemma line_pipeline
    (spline_value : ndarray -> Z -> list Q -> Q)
    (volume line positions : ndarray) (orientations : list Rotation)
    (order : Z) (T : nat) :
  ndim volume = 3%nat -> (0 <= order <= 5)%Z ->
  wf line -> T <> 0%nat ->
  shape line = (if (T =? 1)%nat then [3%nat] else [T; 3%nat]) ->
  orientations <> [] ->
  shape positions = [length orientations; 3%nat] ->
  exists coordinates sampled,
    generate_sampling_coordinates line positions orientations = Some coordinates
    /\ sample_volume_at_coordinates spline_value volume coordinates order
      = Some sampled
    /\ length (data sampled) = (length orientations * T)%nat
    /\ forall i k, (i < length orientations)%nat -> (k < T)%nat ->
         flat sampled (i * T + k) =
         spline_value volume order
           (coords_of (vadd (apply_vec (nth i orientations identity)
                                       (row (data line) k))
                            (row (data positions) i))).
Proof.
  intros Hv Ho Hwf HT Hs Hne Hp.
  destruct (Nat.eqb_spec T 1) as [->|HT1].
  - destruct (pipeline_entries spline_value volume line positions orientations
                order [] Hv Ho Hwf Hs) as (c & r & Hc & Hr & Hwfr & Hsr & Hget);
      [simpl; lia|assumption|assumption|].
    exists c, r. repeat split; auto.
    + unfold wf in Hwfr. rewrite Hwfr, Hsr. simpl. lia.
    + intros i k Hi Hk. assert (k = 0%nat) as -> by lia.
      specialize (Hget i [] Hi eq_refl).
      apply getitem_Some in Hget. destruct Hget as [_ Hget].
      rewrite Hsr in Hget. cbn in Hget.
      replace (i * 1 + 0)%nat with i in * by lia.
      symmetry. exact Hget.
  - destruct (pipeline_entries spline_value volume line positions orientations
                order [T] Hv Ho Hwf Hs) as (c & r & Hc & Hr & Hwfr & Hsr & Hget);
      [simpl; lia|assumption|assumption|].
    exists c, r. repeat split; auto.
    + unfold wf in Hwfr. rewrite Hwfr, Hsr. simpl. lia.
    + intros i k Hi Hk.
      assert (Hin : in_bounds [T] [k] = true) by in_bounds_lia.
      specialize (Hget i [k] Hi Hin).
      apply getitem_Some in Hget. destruct Hget as [_ Hget].
      rewrite Hsr in Hget. cbn in Hget.
      replace (i * (T * 1) + (k * 1 + 0))%nat with (i * T + k)%nat in Hget by lia.
      replace (k * 1 + 0)%nat with k in Hget by lia.
      symmetry. exact Hget.
Qed.

(** X13.  [sample_volume_around_surface] on a surface object of [r x c]
    points ([r * c >= 1] positions and as many orientations) with a thickness
    [t >= 1]: the result has shape [(r, c, t)], and its entry [(a, b, k)] is
    the interpolant at position [a * c + b] plus point [k] of the 1-D grid
    rotated by orientation [a * c + b]; the 1-D grid is the one
    [generate_1D_grid] returns for that thickness and spacing, and its point
    [k] is [(0, 0, z)] for some [z]. *)
Theorem sample_volume_around_surface_entries
    (spline_value : ndarray -> Z -> list Q -> Q)
    (SplineSurfaceGrid_init : ndarray -> Q -> option Surface.SplineSurfaceGrid)
    (volume positions : ndarray) (orientations : list Rotation)
    (surface : Surface.SplineSurfaceGrid) (r c : nat) (t : Z) (s : Q)
    (order : Z) :
  ndim volume = 3%nat -> (0 <= order <= 5)%Z -> (0 < t)%Z ->
  Surface.grid_shape surface = (Z.of_nat r, Z.of_nat c) ->
  Surface.sample_surface surface = Some positions ->
  Surface.sample_surface_orientations surface = Some orientations ->
  length orientations = (r * c)%nat -> (r * c <> 0)%nat ->
  shape positions = [(r * c)%nat; 3%nat] ->
  exists grid sampled,
    generate_1D_grid t s = Some grid
    /\ sample_volume_around_surface spline_value SplineSurfaceGrid_init volume
         (inr surface) t s order = Some sampled
    /\ shape sampled = [r; c; Z.to_nat t]
    /\ forall a b k orientation p,
         (a < r)%nat -> (b < c)%nat -> (k < Z.to_nat t)%nat ->
         nth_error orientations (a * c + b) = Some orientation ->
         point_at positions [(a * c + b)%nat] = Some p ->
         (exists z, row (data grid) k = (0, 0, z))
         /\ getitem sampled [a; b; k] =
            Some (spline_value volume order
                    (coords_of (vadd (apply_vec orientation (row (data grid) k))
                                     p))).
Proof.
  intros Hv Ho Ht Hgs Hpos Hor Hlen Hrc Hp.
  unfold sample_volume_around_surface. cbn [bind].
  unfold generate_1D_grid.
  destruct (grid_rows 1 1 t 1 1 s true) as (g & Hg & Hs & Hwf & Hrow); try lia.
  rewrite Hg, Hpos, Hor. cbn [bind].
  set (T := Z.to_nat t) in *.
  assert (HT : T <> 0%nat) by (subst T; lia).
  assert (Hs' : shape g = (if (T =? 1)%nat then [3%nat] else [T; 3%nat])).
  { rewrite Hs. cbn [filter]. change (not_one (Z.to_nat 1)) with false.
    change (not_one 3) with true. unfold not_one.
    destruct (T =? 1)%nat; reflexivity. }
  assert (Hne : orientations <> [])
    by (intros ->; simpl in Hlen; lia).
  rewrite <- Hlen in Hp.
  destruct (line_pipeline spline_value volume g positions orientations order T
              Hv Ho Hwf HT Hs' Hne Hp) as (co & r1 & Hc & Hr1 & Hl & Hflat).
  rewrite Hc. cbn [bind]. rewrite Hr1. cbn [bind].
  rewrite Hgs. cbn [fst snd].
  replace [Z.of_nat r; Z.of_nat c; t] with (dims_of [r; c; T])
    by (unfold dims_of, T; simpl; now rewrite Z2Nat.id by lia).
  rewrite reshape_exact, Hl, Hlen.
  replace (r * c * T =? size [r; c; T])%nat with true
    by (symmetry; apply Nat.eqb_eq; simpl; lia).
  exists g. eexists. split; [reflexivity|].
  split; [reflexivity|]. split; [reflexivity|].
  intros a b k orientation p Ha Hb Hk HR Hpt.
  assert (Hi : (a * c + b < length orientations)%nat) by (rewrite Hlen; nia).
  split.
  { destruct (Hrow 0%nat 0%nat k) as (x & y & z & Hr & [_ Hx] & [_ Hy] & _);
      [simpl; lia|simpl; lia|exact Hk|].
    rewrite (Hx eq_refl), (Hy eq_refl) in Hr.
    change (Z.to_nat 1) with 1%nat in Hr. cbn [Nat.mul Nat.add] in Hr.
    exists z. exact Hr. }
  apply (point_at_row positions [length orientations]) in Hpt; [|exact Hp].
  destruct Hpt as [_ ->].
  change (ravel [length orientations] [(a * c + b)%nat])
    with ((a * c + b) * 1 + 0)%nat.
  replace ((a * c + b) * 1 + 0)%nat with (a * c + b)%nat by lia.
  unfold getitem. cbn [shape data].
  replace (in_bounds [r; c; T] [a; b; k]) with true
    by (symmetry; in_bounds_lia).
  replace (ravel [r; c; T] [a; b; k]) with ((a * c + b) * T + k)%nat
    by (simpl; lia).
  rewrite (nth_error_nth' _ 0) by (rewrite Hl, Hlen; nia).
  f_equal. fold (flat r1 ((a * c + b) * T + k)).
  rewrite Hflat by assumption.
  rewrite (nth_error_nth _ _ identity HR). reflexivity.
Qed.

Lemma sample_volume_around_surface_entries_witness :
  exists sampled,
    sample_volume_around_surface coordinate_sum no_surface unit_volume
      (inr surface_1_2) 3 1 3 = Some sampled
    /\ shape sampled = [1; 2; 3]%nat.
Proof.
  destruct (sample_volume_around_surface_entries coordinate_sum no_surface
              unit_volume two_positions [identity; rot_z90] surface_1_2
              1 2 3 1 3) as (g & r & _ & Hr & Hs & _).
  - reflexivity.
  - lia.
  - lia.
  - reflexivity.
  - reflexivity.
  - reflexivity.
  - reflexivity.
  - simpl; lia.
  - reflexivity.
  - exists r. split; [exact Hr|exact Hs].
Defined.

(** X14.  A thickness of zero or less makes the surface sampler fail for
    every volume and surface: a negative count is rejected by the grid
    generator, and the empty 1-D grid of zero points by the pose stage. *)
Theorem sample_volume_around_surface_needs_thickness
    (spline_value : ndarray -> Z -> list Q -> Q)
    (SplineSurfaceGrid_init : ndarray -> Q -> option Surface.SplineSurfaceGrid)
    (volume : ndarray) (surface : ndarray + Surface.SplineSurfaceGrid)
    (t : Z) (s : Q) (order : Z) :
  (t <= 0)%Z ->
  sample_volume_around_surface spline_value SplineSurfaceGrid_init volume
    surface t s order = None.
Proof.
  intros Ht. unfold sample_volume_around_surface.
  destruct (match surface with
            | inl points => SplineSurfaceGrid_init points s
            | inr s0 => Some s0
            end) as [S|]; [|reflexivity].
  cbn [bind]. unfold generate_1D_grid.
  destruct (Z.ltb_spec t 0) as [L|L];
    [rewrite grid_fails by lia; reflexivity|].
  destruct (grid_returns 1 1 t 1 1 s true) as (g & Hg & Hs & _); try lia.
  rewrite Hg. cbn [bind].
  destruct (Surface.sample_surface S) as [positions|]; [|reflexivity].
  destruct (Surface.sample_surface_orientations S) as [orientations|];
    [|reflexivity].
  cbn [bind]. rewrite placement_empty_grid; [reflexivity|].
  rewrite Hs. assert (t = 0%Z) as -> by lia. reflexivity.
Qed.

Lemma sample_volume_around_surface_needs_thickness_witness :
  sample_volume_around_surface coordinate_sum no_surface unit_volume
    (inr surface_1_2) 0 1 3 = None.
Proof.
  apply (sample_volume_around_surface_needs_thickness coordinate_sum no_surface
           unit_volume (inr surface_1_2) 0 1 3).
  lia.
Defined.

(** X15.  With a number as [sampling_spacing], which is its annotated type
    and its default, the spline sampler always fails: whatever the spline
    returns, [generate_2D_grid] then unpacks the number as a pair. *)
Theorem sample_volume_along_spline_number_spacing_fails
    (spline_value : ndarray -> Z -> list Q -> Q)
    (Spline3D_init : ndarray -> option Spline.Spline3D)
    (volume : ndarray) (spline : ndarray + Spline.Spline3D)
    (sampling_shape : Z * Z) (x : Q) (order : Z) :
  sample_volume_along_spline spline_value Spline3D_init volume spline
    sampling_shape (Number x) order = None.
Proof.
  unfold sample_volume_along_spline.
  destruct (match spline with
            | inl points => Spline3D_init points
            | inr s => Some s
            end) as [S|]; [|reflexivity].
  cbn [bind].
  destruct (Spline._get_equidistance_spline_samples S (Number x));
    [|reflexivity].
  cbn [bind].
  destruct (Spline._get_equidistance_orientations S (Number x)); reflexivity.
Qed.

(** X16.  With a pair [(sx, sy)] as spacing, a sampling shape of
    [m x n] points ([m, n >= 2]) and a spline that returns [B >= 1] positions
    and as many orientations for that spacing: the result has shape
    [(B, n, m)], and its entry [(i, b, a)] is the interpolant at
    [orientations[i].apply(grid[a, b]) + positions[i]], the grid being the
    2-D grid of that shape and spacing. *)
Theorem sample_volume_along_spline_entries
    (spline_value : ndarray -> Z -> list Q -> Q)
    (Spline3D_init : ndarray -> option Spline.Spline3D)
    (volume positions : ndarray) (orientations : list Rotation)
    (spline : Spline.Spline3D) (m n : Z) (sx sy : Q) (order : Z) :
  ndim volume = 3%nat -> (0 <= order <= 5)%Z ->
  (2 <= m)%Z -> (2 <= n)%Z ->
  Spline._get_equidistance_spline_samples spline (Pair sx sy) = Some positions ->
  Spline._get_equidistance_orientations spline (Pair sx sy) = Some orientations ->
  orientations <> [] ->
  shape positions = [length orientations; 3%nat] ->
  exists grid sampled,
    generate_2D_grid (m, n) (sx, sy) = Some grid
    /\ sample_volume_along_spline spline_value Spline3D_init volume
         (inr spline) (m, n) (Pair sx sy) order = Some sampled
    /\ shape sampled = [length orientations; Z.to_nat n; Z.to_nat m]
    /\ forall i a b orientation g p,
         nth_error orientations i = Some orientation ->
         point_at grid [a; b] = Some g ->
         point_at positions [i] = Some p ->
         getitem sampled [i; b; a] =
         Some (spline_value volume order
                 (coords_of (vadd (apply_vec orientation g) p))).
Proof.
  intros Hv Ho Hm Hn Hpos Hor Hne Hp.
  unfold sample_volume_along_spline. cbn [bind].
  rewrite Hpos, Hor. cbn [bind].
  unfold generate_2D_grid. cbn [fst snd].
  destruct (grid_returns m n 1 sx sy 1 true) as (g & Hg & Hs & Hwf & _);
    try lia.
  rewrite Hg. cbn [bind].
  assert (Hs' : shape g = [Z.to_nat m; Z.to_nat n] ++ [3%nat]).
  { rewrite Hs. cbn [filter app]. change (not_one (Z.to_nat 1)) with false.
    change (not_one 3) with true.
    replace (not_one (Z.to_nat m)) with true
      by (symmetry; unfold not_one; apply negb_true_iff, Nat.eqb_neq; lia).
    replace (not_one (Z.to_nat n)) with true
      by (symmetry; unfold not_one; apply negb_true_iff, Nat.eqb_neq; lia).
    reflexivity. }
  assert (HN : size [Z.to_nat m; Z.to_nat n] <> 0%nat) by (simpl; nia).
  destruct (pipeline_points spline_value volume g positions orientations order
              (Z.to_nat m) [Z.to_nat n] Hv Ho Hwf Hs' HN Hne Hp)
    as (c & r & Hc & Hr & _ & Hsr & Hget).
  rewrite Hc. cbn [bind]. rewrite Hr.
  exists g, r. repeat split; auto.
  intros i a b orientation gp p HR Hgp Hpt.
  exact (Hget i a [b] orientation gp p HR Hgp Hpt).
Qed.

Lemma sample_volume_along_spline_entries_witness :
  exists sampled,
    sample_volume_along_spline coordinate_sum no_spline unit_volume
      (inr spline_two_samples) (2, 3)%Z (Pair 1 1) 3 = Some sampled
    /\ shape sampled = [2; 3; 2]%nat.
Proof.
  destruct (sample_volume_along_spline_entries coordinate_sum no_spline
              unit_volume two_positions [identity; rot_z90] spline_two_samples
              2 3 1 1 3) as (g & r & _ & Hr & Hs & _).
  - reflexivity.
  - lia.
  - lia.
  - lia.
  - reflexivity.
  - reflexivity.
  - discriminate.
  - reflexivity.
  - exists r. split; [exact Hr|exact Hs].
Defined.

(** * Coordinate values in binary64 *)

(** ** Rounding never overflows on small inputs *)

Section Binary64.

Local Open Scope Z_scope.

Lemma digits2_pos_size (p : positive) : digits2_pos p = Pos.size p.
Proof. induction p; simpl; congruence. Qed.

Lemma Zdigits2_nonneg (m : Z) : 0 <= Zdigits2 m.
Proof. destruct m; simpl; lia. Qed.

Lemma Zdigits2_le (m a : Z) : 0 <= m < 2 ^ a -> 0 <= a -> Zdigits2 m <= a.
Proof.
  intros [H0 Hm] Ha. destruct m as [|p|p]; simpl; try lia.
  rewrite digits2_pos_size.
  pose proof (Pos.size_le p) as Hle.
  apply Pos2Z.pos_le_pos in Hle. rewrite Pos2Z.inj_pow in Hle.
  change (Z.pos p~0) with (2 * Z.pos p) in Hle.
  assert (Hlt : 2 ^ Z.pos (Pos.size p) < 2 ^ (a + 1)).
  { rewrite Z.pow_add_r by lia. change (2 ^ 1) with 2. lia. }
  apply Z.pow_lt_mono_r_iff in Hlt; lia.
Qed.

Lemma shr_1_bounds (mrs : shr_record) :
  0 <= shr_m mrs -> 0 <= shr_m (shr_1 mrs) <= shr_m mrs.
Proof.
  destruct mrs as [m r s]. simpl.
  destruct m as [|[p|p|]|p]; simpl; lia.
Qed.

Lemma iter_shr_1_bounds (p : positive) (mrs : shr_record) :
  0 <= shr_m mrs -> 0 <= shr_m (iter_pos shr_1 p mrs) <= shr_m mrs.
Proof.
  revert mrs. induction p as [p IH|p IH|]; intros mrs H; simpl.
  - pose proof (shr_1_bounds mrs H) as H1.
    pose proof (IH _ (proj1 H1)) as H2.
    pose proof (IH _ (proj1 H2)) as H3. lia.
  - pose proof (IH _ H) as H2.
    pose proof (IH _ (proj1 H2)) as H3. lia.
  - now apply shr_1_bounds.
Qed.

Lemma shr_bounds (mrs : shr_record) (e n : Z) :
  0 <= shr_m mrs ->
  0 <= shr_m (fst (shr mrs e n)) <= shr_m mrs
  /\ snd (shr mrs e n) = e + Z.max 0 n.
Proof.
  intros H. unfold shr. destruct n as [|p|p]; simpl.
  - split; lia.
  - split; [now apply iter_shr_1_bounds|lia].
  - split; lia.
Qed.

Lemma shr_m_of_loc (m : Z) (l : location) : shr_m (shr_record_of_loc m l) = m.
Proof. destruct l as [|[| |]]; reflexivity. Qed.

Lemma shr_fexp_bounds (m e a : Z) (l : location) :
  0 <= m < 2 ^ a -> 0 <= a -> -1074 <= e ->
  0 <= shr_m (fst (shr_fexp F64.prec F64.emax m e l)) <= m
  /\ e <= snd (shr_fexp F64.prec F64.emax m e l) <= e + a.
Proof.
  intros Hm Ha He. unfold shr_fexp.
  pose proof (shr_bounds (shr_record_of_loc m l) e
                (fexp F64.prec F64.emax (Zdigits2 m + e) - e)) as H.
  rewrite shr_m_of_loc in H. destruct (H (proj1 Hm)) as [H1 H2].
  split; [exact H1|]. rewrite H2.
  pose proof (Zdigits2_le m a Hm Ha). pose proof (Zdigits2_nonneg m).
  unfold fexp, emin, F64.prec, F64.emax. lia.
Qed.

Lemma round_nearest_even_bounds (m : Z) (l : location) :
  0 <= m -> m <= round_nearest_even m l <= m + 1.
Proof.
  intros H. unfold round_nearest_even.
  destruct l as [|[| |]]; try lia. destruct (Z.even m); lia.
Qed.

Lemma binary_round_aux_finite (sx : bool) (m e a : Z) (l : location) :
  0 <= m < 2 ^ a -> 0 <= a -> -1074 <= e -> e + 2 * a + 1 <= 971 ->
  F64.is_finite (binary_round_aux F64.prec F64.emax sx m e l).
Proof.
  intros Hm Ha He Hb. unfold binary_round_aux.
  pose proof (shr_fexp_bounds m e a l Hm Ha He) as H1.
  destruct (shr_fexp F64.prec F64.emax m e l) as [mrs1 e1]. simpl in H1.
  pose proof (round_nearest_even_bounds (shr_m mrs1)
                (loc_of_shr_record mrs1) (proj1 (proj1 H1))) as Hr.
  assert (Hm2 : 0 <= round_nearest_even (shr_m mrs1) (loc_of_shr_record mrs1)
                < 2 ^ (a + 1)).
  { rewrite Z.pow_add_r by lia. change (2 ^ 1) with 2. lia. }
  pose proof (shr_fexp_bounds _ e1 (a + 1) loc_Exact Hm2) as H2.
  destruct (shr_fexp F64.prec F64.emax
              (round_nearest_even (shr_m mrs1) (loc_of_shr_record mrs1))
              e1 loc_Exact) as [mrs2 e2].
  simpl in H2. specialize (H2 ltac:(lia) ltac:(lia)).
  destruct (shr_m mrs2) as [|p|p] eqn:E; simpl; try exact I; try lia.
  destruct (Z.leb_spec e2 971); [exact I|lia].
Qed.

End Binary64.

Section Binary64Integers.

Local Open Scope Z_scope.

Lemma digits2_pos_iter_xO (p d : positive) :
  digits2_pos (Pos.iter xO p d) = (digits2_pos p + d)%positive.
Proof.
  induction d as [|d IH] using Pos.peano_ind.
  - simpl. lia.
  - rewrite Pos.iter_succ. simpl. rewrite IH. lia.
Qed.

(** Rounding a mantissa of exactly 53 bits leaves it as it is. *)
Lemma binary_round_aux_exact (sx : bool) (m : positive) (e : Z) :
  Z.pos (digits2_pos m) = 53 -> -1074 <= e <= 971 ->
  binary_round_aux F64.prec F64.emax sx (Z.pos m) e loc_Exact
  = S754_finite sx m e.
Proof.
  intros Hd He. unfold binary_round_aux.
  assert (Hs : shr_fexp F64.prec F64.emax (Z.pos m) e loc_Exact
               = (Build_shr_record (Z.pos m) false false, e)).
  { unfold shr_fexp. cbn [Zdigits2]. rewrite Hd.
    replace (fexp F64.prec F64.emax (53 + e) - e) with 0
      by (unfold fexp, emin, F64.prec, F64.emax; lia).
    reflexivity. }
  rewrite Hs. cbn [shr_m loc_of_shr_record round_nearest_even]. rewrite Hs.
  cbn [shr_m].
  replace (e <=? F64.emax - F64.prec) with true
    by (symmetry; apply Z.leb_le; unfold F64.emax, F64.prec; lia).
  reflexivity.
Qed.

(** The float of an integer in [1, 2^53) is positive and finite, with a
    full mantissa and an exponent in [-52, 0]. *)
Lemma of_Z_class (d : Z) :
  1 <= d < 2 ^ 53 ->
  exists m e,
    F64.of_Z d = S754_finite false m e
    /\ Z.pos (digits2_pos m) = 53 /\ -52 <= e <= 0.
Proof.
  intros Hd. destruct d as [|p|p]; try lia.
  unfold F64.of_Z, binary_normalize, binary_round.
  pose proof (Zdigits2_le (Z.pos p) 53 ltac:(lia) ltac:(lia)) as Hk.
  cbn [Zdigits2] in Hk.
  set (k := digits2_pos p) in *.
  assert (Hf : fexp F64.prec F64.emax (Z.pos k + 0) = Z.pos k - 53)
    by (unfold fexp, emin, F64.prec, F64.emax; lia).
  rewrite Hf. unfold shl_align.
  destruct (Z.pos k - 53 - 0) as [|q|q] eqn:E; try lia.
  - exists p, 0. split; [|split; [fold k; lia|lia]].
    apply binary_round_aux_exact; [fold k; lia|lia].
  - exists (Pos.iter xO p q), (Z.pos k - 53).
    assert (Hdig : Z.pos (digits2_pos (Pos.iter xO p q)) = 53).
    { rewrite digits2_pos_iter_xO. fold k. lia. }
    split; [|split; [exact Hdig|lia]].
    apply binary_round_aux_exact; [exact Hdig|lia].
Qed.

(** [1 / d] is finite for such an integer [d]. *)
Lemma step_finite (d : Z) :
  1 <= d < 2 ^ 53 -> F64.is_finite (F64.div F64.one (F64.of_Z d)).
Proof.
  intros Hd. destruct (of_Z_class d Hd) as (m & e & -> & Hm & He).
  unfold F64.div, F64.one, SFdiv, SFdiv_core_binary.
  cbn [Zdigits2]. rewrite Hm.
  change (Z.pos (digits2_pos 4503599627370496)) with 53.
  replace (Z.min (fexp F64.prec F64.emax (53 + -52 - (53 + e))) (-52 - e))
    with (-105 - e) by (unfold fexp, emin, F64.prec, F64.emax; lia).
  replace (-52 - e - (-105 - e)) with 53 by lia.
  cbv iota.
  set (M := Z.shiftl 4503599627370496 53).
  assert (HM : M = 40564819207303340847894502572032) by reflexivity.
  clearbody M.
  pose proof (Z_div_mod M (Z.pos m) ltac:(lia)) as H.
  destruct (Z.div_eucl M (Z.pos m)) as [q r]. destruct H as [Hq Hr].
  apply (binary_round_aux_finite _ q (-105 - e) 106); try lia.
  assert (0 <= q) by nia.
  assert (q <= M) by nia.
  change (2 ^ 106) with 81129638414606681695789005144064. lia.
Qed.

End Binary64Integers.

(** ** Signs and zeros *)

Lemma binary_round_aux_opp (sx : bool) (m e : Z) (l : location) :
  binary_round_aux F64.prec F64.emax (negb sx) m e l
  = SFopp (binary_round_aux F64.prec F64.emax sx m e l).
Proof.
  unfold binary_round_aux.
  destruct (shr_fexp F64.prec F64.emax m e l) as [mrs1 e1].
  destruct (shr_fexp F64.prec F64.emax _ e1 loc_Exact) as [mrs2 e2].
  destruct (shr_m mrs2); [reflexivity| |reflexivity].
  destruct (Z.leb e2 (F64.emax - F64.prec)); reflexivity.
Qed.

Lemma mul_opp_l (x y : F64.float) :
  F64.mul (F64.opp x) y = F64.opp (F64.mul x y).
Proof.
  unfold F64.mul, F64.opp.
  destruct x as [sx|sx| |sx mx ex], y as [sy|sy| |sy my ey]; simpl;
    rewrite <- ?negb_xorb_l; try reflexivity.
  apply binary_round_aux_opp.
Qed.

Lemma mul_zero_l (sx : bool) (y : F64.float) :
  F64.is_finite y -> exists s, F64.mul (S754_zero sx) y = S754_zero s.
Proof.
  destruct y as [sy|sy| |sy my ey]; simpl; intros H; try contradiction;
    eexists; reflexivity.
Qed.

Lemma div_zero_l (sx : bool) (sy : bool) (my : positive) (ey : Z) :
  F64.div (S754_zero sx) (S754_finite sy my ey) = S754_zero (xorb sx sy).
Proof. reflexivity. Qed.

Lemma add_zero_neg_half (s : bool) :
  F64.add (S754_zero s) (F64.opp F64.half) = F64.opp F64.half.
Proof. destruct s; reflexivity. Qed.

(** ** linspace(-0.5, 0.5, num) and one axis of the grid *)

Lemma F64_nth_set_last (l : list F64.float) (x d : F64.float) (i : nat) :
  (i < length l)%nat ->
  nth i (F64.set_last l x) d
  = if (i =? length l - 1)%nat then x else nth i l d.
Proof.
  intros H. unfold F64.set_last. destruct l as [|a l]; [simpl in H; lia|].
  set (l' := a :: l) in *.
  assert (Hrl : length (removelast l') = (length l' - 1)%nat).
  { rewrite removelast_firstn_len, length_firstn. lia. }
  destruct (Nat.eqb_spec i (length l' - 1)) as [->|Hne].
  - rewrite app_nth2 by lia. rewrite Hrl, Nat.sub_diag. reflexivity.
  - rewrite app_nth1 by lia.
    rewrite removelast_firstn_len, nth_firstn.
    replace (i <? Nat.pred (length l'))%nat with true
      by (symmetry; apply Nat.ltb_lt; lia).
    reflexivity.
Qed.

Lemma F64_length_set_last (l : list F64.float) (x : F64.float) :
  length (F64.set_last l x) = length l.
Proof.
  unfold F64.set_last. destruct l as [|a l]; [reflexivity|].
  rewrite length_app, removelast_firstn_len, length_firstn. simpl. lia.
Qed.

Lemma F64_linspace_negative (start stop : F64.float) (num : Z) :
  (num < 0)%Z -> F64.linspace start stop num = None.
Proof.
  intros H. unfold F64.linspace.
  replace (0 <=? num)%Z with false by (symmetry; apply Z.leb_gt; lia).
  reflexivity.
Qed.

Lemma F64_linspace_centred (num : Z) :
  (2 <= num <= 2 ^ 53)%Z ->
  exists y,
    F64.linspace (F64.opp F64.half) F64.half num = Some y
    /\ length y = Z.to_nat num
    /\ nth 0 y F64.zero = F64.opp F64.half
    /\ nth (Z.to_nat num - 1) y F64.zero = F64.half.
Proof.
  intros H. unfold F64.linspace.
  replace (0 <=? num)%Z with true by (symmetry; apply Z.leb_le; lia).
  replace (0 <? num - 1)%Z with true by (symmetry; apply Z.ltb_lt; lia).
  replace (1 <? num)%Z with true by (symmetry; apply Z.ltb_lt; lia).
  cbn [guard bind].
  change (F64.sub F64.half (F64.opp F64.half)) with F64.one.
  set (step := F64.div F64.one (F64.of_Z (num - 1))).
  set (y1 := if F64.eqb step F64.zero
             then map (fun v => F64.mul (F64.div v (F64.of_Z (num - 1))) F64.one)
                    (map (fun i => F64.of_Z (Z.of_nat i)) (seq 0 (Z.to_nat num)))
             else map (fun v => F64.mul v step)
                    (map (fun i => F64.of_Z (Z.of_nat i)) (seq 0 (Z.to_nat num)))).
  assert (Hl1 : length y1 = Z.to_nat num)
    by (subst y1; destruct (F64.eqb step F64.zero);
        now rewrite !length_map, length_seq).
  assert (H0 : exists s, nth 0 y1 F64.zero = S754_zero s).
  { destruct (Z.to_nat num) as [|n] eqn:En; [lia|].
    subst y1. cbn [seq map].
    change (F64.of_Z (Z.of_nat 0)) with (S754_zero false).
    destruct (F64.eqb step F64.zero); cbn [nth].
    - destruct (of_Z_class (num - 1) ltac:(lia)) as (m & e & -> & _).
      rewrite div_zero_l. eexists. reflexivity.
    - apply mul_zero_l. apply step_finite. lia. }
  eexists. split; [reflexivity|].
  rewrite F64_length_set_last, length_map, Hl1.
  split; [reflexivity|].
  rewrite !F64_nth_set_last by (rewrite length_map, Hl1; lia).
  rewrite length_map, Hl1, Nat.eqb_refl.
  replace (0 =? Z.to_nat num - 1)%nat with false
    by (symmetry; apply Nat.eqb_neq; lia).
  split; [|reflexivity].
  destruct H0 as [s Hs].
  destruct y1 as [|a y1]; [simpl in Hl1; lia|].
  cbn [map nth] in *. rewrite Hs. apply add_zero_neg_half.
Qed.

Lemma F64_axis_coord_negative (ln : Z) (spacing : F64.float) :
  (ln < 0)%Z -> F64.axis_coord ln spacing = None.
Proof.
  intros H. unfold F64.axis_coord.
  replace (ln =? 1)%Z with false by (symmetry; apply Z.eqb_neq; lia).
  cbn [negb]. now rewrite F64_linspace_negative.
Qed.

(** An axis of [ln] points: [ln] values, the number 0 alone when [ln = 1],
    and otherwise from [-h] to [+h] for [h = (0.5 * (ln - 1)) * spacing]. *)
Lemma F64_axis_coord_ends (ln : Z) (spacing : F64.float) :
  (1 <= ln <= 2 ^ 53)%Z ->
  exists c,
    F64.axis_coord ln spacing = Some c
    /\ length c = Z.to_nat ln
    /\ (ln = 1%Z -> c = [F64.zero])
    /\ (1 < ln ->
        nth 0 c F64.zero = F64.opp (F64.half_span ln spacing)
        /\ nth (Z.to_nat ln - 1) c F64.zero = F64.half_span ln spacing)%Z.
Proof.
  intros H. unfold F64.axis_coord.
  destruct (Z.eqb_spec ln 1) as [->|Hne]; cbn [negb].
  - exists [F64.zero]. repeat split; try reflexivity; lia.
  - destruct (F64_linspace_centred ln ltac:(lia)) as (y & -> & Hl & Hf & Hlast).
    cbn [bind]. eexists. split; [reflexivity|].
    rewrite length_map. split; [exact Hl|]. split; [lia|].
    intros _. unfold F64.half_span.
    set (g := fun v => F64.mul (F64.mul v (F64.of_Z (ln - 1))) spacing).
    assert (Hg : forall i, (i < length y)%nat ->
              nth i (map g y) F64.zero = g (nth i y F64.zero)).
    { intros i Hi. rewrite (nth_indep _ F64.zero (g F64.zero))
        by (now rewrite length_map).
      apply map_nth. }
    rewrite !Hg by lia. rewrite Hf, Hlast. subst g. cbn beta.
    split; [|reflexivity].
    now rewrite !mul_opp_l.
Qed.

(** ** The grid in binary64 *)

Lemma F64_getitem_tabulate (s idx : list nat) (g : list nat -> F64.float) :
  in_bounds s idx = true ->
  F64.getitem (F64.tabulate s g) idx = Some (g idx).
Proof.
  intros H. unfold F64.getitem, F64.tabulate. cbn [F64.shape F64.data].
  rewrite H. pose proof (ravel_lt _ _ H) as Hlt.
  rewrite (nth_error_nth' _ F64.zero) by (now rewrite length_map, length_seq).
  rewrite nth_map_seq by assumption. now rewrite unravel_ravel.
Qed.

Lemma F64_flat_tabulate (s idx : list nat) (g : list nat -> F64.float) :
  in_bounds s idx = true ->
  F64.flat (F64.tabulate s g) (ravel s idx) = g idx.
Proof.
  intros H. unfold F64.flat, F64.tabulate. cbn [F64.data].
  rewrite nth_map_seq by (now apply ravel_lt). now rewrite unravel_ravel.
Qed.

(** Entry [(i0, i1, i2, k)] of the stacked mesh is sample [ik] of axis [k]. *)
Lemma F64_stack_meshgrid (c0 c1 c2 : list F64.float) (i0 i1 i2 k : nat) :
  let s := [length c0; length c1; length c2] in
  in_bounds (s ++ [3%nat]) [i0; i1; i2; k] = true ->
  F64.getitem (F64.stack_3 (F64.meshgrid_ij c0 c1 c2) s) [i0; i1; i2; k]
  = Some (nth (nth k [i0; i1; i2] 0%nat) (nth k [c0; c1; c2] []) F64.zero).
Proof.
  intros s Hin. unfold F64.stack_3.
  change (length (F64.meshgrid_ij c0 c1 c2)) with 3%nat.
  rewrite F64_getitem_tabulate by exact Hin.
  cbn [firstn nth].
  assert (Hb : in_bounds s [i0; i1; i2] = true /\ (k < 3)%nat).
  { subst s. cbn [app in_bounds] in Hin |- *.
    rewrite !andb_true_iff, !Nat.ltb_lt in *. lia. }
  destruct Hb as [Hs Hk]. unfold F64.meshgrid_ij. fold s.
  destruct k as [|[|[|k]]]; [| | |lia]; cbn [nth];
    now rewrite F64_flat_tabulate.
Qed.

Section GridBinary64.

Variables (n0 n1 n2 : Z) (s0 s1 s2 : F64.float) (squeeze : bool).

Let full_shape : list nat := [Z.to_nat n0; Z.to_nat n1; Z.to_nat n2; 3%nat].

Lemma F64_grid_returns (c0 c1 c2 : list F64.float) :
  F64.axis_coord n0 s0 = Some c0 -> length c0 = Z.to_nat n0 ->
  F64.axis_coord n1 s1 = Some c1 -> length c1 = Z.to_nat n1 ->
  F64.axis_coord n2 s2 = Some c2 -> length c2 = Z.to_nat n2 ->
  exists grid,
    F64.generate_3D_grid (n0, n1, n2) (s0, s1, s2) squeeze = Some grid
    /\ F64.shape grid
       = (if squeeze then filter not_one full_shape else full_shape)
    /\ forall i0 i1 i2 k,
         in_bounds full_shape [i0; i1; i2; k] = true ->
         F64.getitem grid (if squeeze
                           then squeeze_index full_shape [i0; i1; i2; k]
                           else [i0; i1; i2; k])
         = Some (nth (nth k [i0; i1; i2] 0%nat) (nth k [c0; c1; c2] [])
                     F64.zero).
Proof.
  intros H0 L0 H1 L1 H2 L2. unfold F64.generate_3D_grid.
  rewrite H0, H1, H2. cbn [bind]. rewrite L0, L1, L2.
  eexists. split; [reflexivity|].
  split; [destruct squeeze; reflexivity|].
  intros i0 i1 i2 k Hin.
  pose proof (F64_stack_meshgrid c0 c1 c2 i0 i1 i2 k) as Hg.
  cbn zeta in Hg. rewrite L0, L1, L2 in Hg. specialize (Hg Hin).
  destruct squeeze; [|exact Hg].
  destruct (squeeze_index_ok _ _ Hin) as [Hsb Hsr].
  unfold F64.getitem in *. cbn [F64.squeeze F64.shape F64.data] in *.
  change (F64.shape (F64.stack_3 (F64.meshgrid_ij c0 c1 c2)
            [Z.to_nat n0; Z.to_nat n1; Z.to_nat n2])) with full_shape in *.
  rewrite Hsb, Hsr. rewrite Hin in Hg. exact Hg.
Qed.

End GridBinary64.

(** ** Shapes and failures do not depend on the arithmetic *)

Lemma F64_linspace_length (start stop : F64.float) (num : Z) :
  (0 <= num)%Z ->
  exists y, F64.linspace start stop num = Some y /\ length y = Z.to_nat num.
Proof.
  intros H. unfold F64.linspace.
  replace (0 <=? num)%Z with true by (symmetry; apply Z.leb_le; lia).
  cbn [guard bind]. eexists. split; [reflexivity|].
  assert (Hl : forall (f : F64.float -> F64.float) (l : list F64.float),
             length (map f l) = length l) by (intros; apply length_map).
  destruct (1 <? num)%Z; rewrite ?F64_length_set_last, Hl;
    destruct (0 <? num - 1)%Z;
    try destruct (F64.eqb _ _);
    now rewrite Hl, length_map, length_seq.
Qed.

Lemma F64_axis_coord_length (ln : Z) (spacing : F64.float) :
  (0 <= ln)%Z ->
  exists c, F64.axis_coord ln spacing = Some c /\ length c = Z.to_nat ln.
Proof.
  intros H. unfold F64.axis_coord.
  destruct (Z.eqb_spec ln 1) as [->|Hne]; cbn [negb].
  - exists [F64.zero]. split; reflexivity.
  - destruct (F64_linspace_length (F64.opp F64.half) F64.half ln H)
      as (y & -> & Hl).
    cbn [bind]. eexists. split; [reflexivity|]. now rewrite length_map.
Qed.

(** The grid generator over the rationals and the one over binary64 fail on
    the same shapes, whatever the spacings, and return arrays of the same
    shape: what is proved of shapes, layouts and failures on the former holds
    of the latter. *)
Lemma generate_3D_grid_shape_binary64
    (n0 n1 n2 : Z) (q0 q1 q2 : Q) (s0 s1 s2 : F64.float) (squeeze : bool) :
  match generate_3D_grid (n0, n1, n2) (q0, q1, q2) squeeze,
        F64.generate_3D_grid (n0, n1, n2) (s0, s1, s2) squeeze with
  | Some grid, Some grid' => shape grid = F64.shape grid'
  | None, None => True
  | _, _ => False
  end.
Proof.
  destruct (Z.ltb_spec n0 0) as [H0|H0];
    [|destruct (Z.ltb_spec n1 0) as [H1|H1];
      [|destruct (Z.ltb_spec n2 0) as [H2|H2]]].
  - rewrite grid_fails by lia. unfold F64.generate_3D_grid.
    now rewrite F64_axis_coord_negative.
  - rewrite grid_fails by lia. unfold F64.generate_3D_grid.
    destruct (F64.axis_coord n0 s0); [|reflexivity]. cbn [bind].
    now rewrite F64_axis_coord_negative.
  - rewrite grid_fails by lia. unfold F64.generate_3D_grid.
    destruct (F64.axis_coord n0 s0); [|reflexivity]. cbn [bind].
    destruct (F64.axis_coord n1 s1); [|reflexivity]. cbn [bind].
    now rewrite F64_axis_coord_negative.
  - destruct (grid_returns n0 n1 n2 q0 q1 q2 squeeze H0 H1 H2)
      as (g & -> & Hs & _).
    destruct (F64_axis_coord_length n0 s0 H0) as (c0 & A0 & L0).
    destruct (F64_axis_coord_length n1 s1 H1) as (c1 & A1 & L1).
    destruct (F64_axis_coord_length n2 s2 H2) as (c2 & A2 & L2).
    destruct (F64_grid_returns n0 n1 n2 s0 s1 s2 squeeze c0 c1 c2
                A0 L0 A1 L1 A2 L2) as (g' & -> & Hs' & _).
    now rewrite Hs, Hs'.
Qed.


(** ** The grid generator: coordinate values *)




(** ** The grid generator: symmetry about the origin *)

(** Points mirrored through the origin are not, in general, the negation of
    each other: on an axis of 10 points with spacing 1, the second value is
    [-3.5] and the ninth is [3.4999999999999996]. *)
Lemma grid_interior_not_mirrored :
  exists grid v1 v8,
    F64.generate_3D_grid (10, 1, 1)%Z (F64.one, F64.one, F64.one) false
      = Some grid
    /\ F64.getitem grid [1; 0; 0; 0]%nat = Some v1
    /\ F64.getitem grid [8; 0; 0; 0]%nat = Some v8
    /\ v1 = S754_finite true 7881299347898368 (-51)
    /\ v8 = S754_finite false 7881299347898367 (-51)
    /\ F64.eqb v1 (F64.opp v8) = false.
Proof.
  eexists; eexists; eexists.
  split; [vm_compute; reflexivity|].
  split; [vm_compute; reflexivity|].
  split; [vm_compute; reflexivity|].
  repeat split; vm_compute; reflexivity.
Qed.

(** X1.  The two opposite corners of the grid mirror each other in binary64:
    for a shape of positive integers (below [2^53]) and any spacing, squeezed
    or not, coordinate [k] of the first point, index [(0, 0, 0)], is the
    negation of coordinate [k] of the last point, index
    [(n0 - 1, n1 - 1, n2 - 1)], when [nk > 1], and both are the number 0 when
    [nk = 1]. *)
Theorem grid_corners_mirror_binary64
    (n0 n1 n2 : Z) (s0 s1 s2 : F64.float) (squeeze : bool) :
  (0 < n0 <= 2 ^ 53)%Z -> (0 < n1 <= 2 ^ 53)%Z -> (0 < n2 <= 2 ^ 53)%Z ->
  let full_shape := [Z.to_nat n0; Z.to_nat n1; Z.to_nat n2; 3%nat] in
  let index (idx : list nat) :=
    if squeeze then squeeze_index full_shape idx else idx in
  exists grid,
    F64.generate_3D_grid (n0, n1, n2) (s0, s1, s2) squeeze = Some grid
    /\ forall k, (k < 3)%nat ->
         exists v w,
           F64.getitem grid (index [0; 0; 0; k]%nat) = Some v
           /\ F64.getitem grid
                (index [Z.to_nat n0 - 1; Z.to_nat n1 - 1; Z.to_nat n2 - 1; k]%nat)
              = Some w
           /\ (nth k [n0; n1; n2] 0%Z = 1%Z -> v = F64.zero /\ w = F64.zero)
           /\ ((1 < nth k [n0; n1; n2] 0)%Z -> v = F64.opp w).
Proof.
  intros H0 H1 H2 full_shape index.
  destruct (F64_axis_coord_ends n0 s0 ltac:(lia)) as (c0 & A0 & L0 & O0 & E0).
  destruct (F64_axis_coord_ends n1 s1 ltac:(lia)) as (c1 & A1 & L1 & O1 & E1).
  destruct (F64_axis_coord_ends n2 s2 ltac:(lia)) as (c2 & A2 & L2 & O2 & E2).
  destruct (F64_grid_returns n0 n1 n2 s0 s1 s2 squeeze c0 c1 c2
              A0 L0 A1 L1 A2 L2) as (g & Hg & _ & Hv).
  exists g. split; [exact Hg|]. intros k Hk.
  assert (Hfirst : in_bounds full_shape [0; 0; 0; k]%nat = true)
    by (unfold full_shape; in_bounds_lia).
  assert (Hlast : in_bounds full_shape
            [Z.to_nat n0 - 1; Z.to_nat n1 - 1; Z.to_nat n2 - 1; k]%nat = true)
    by (unfold full_shape; in_bounds_lia).
  eexists. eexists.
  split; [exact (Hv _ _ _ _ Hfirst)|]. split; [exact (Hv _ _ _ _ Hlast)|].
  destruct k as [|[|[|k]]]; [| | |lia]; cbn [nth].
  - split.
    + intros E. rewrite (O0 E), E. split; reflexivity.
    + intros Hn. destruct (E0 Hn) as [-> ->]. reflexivity.
  - split.
    + intros E. rewrite (O1 E), E. split; reflexivity.
    + intros Hn. destruct (E1 Hn) as [-> ->]. reflexivity.
  - split.
    + intros E. rewrite (O2 E), E. split; reflexivity.
    + intros Hn. destruct (E2 Hn) as [-> ->]. reflexivity.
Qed.

Lemma grid_corners_mirror_binary64_witness :
  exists grid v w,
    F64.generate_3D_grid (10, 1, 1)%Z (F64.one, F64.one, F64.one) false
      = Some grid
    /\ F64.getitem grid [0; 0; 0; 0]%nat = Some v
    /\ F64.getitem grid [9; 0; 0; 0]%nat = Some w
    /\ v = F64.opp w.
Proof.
  destruct (grid_corners_mirror_binary64 10 1 1 F64.one F64.one F64.one false)
    as (g & Hg & Hk).
  - lia.
  - lia.
  - lia.
  - destruct (Hk 0%nat ltac:(lia)) as (v & w & Hv & Hw & _ & Hm).
    exists g, v, w. split; [exact Hg|]. split; [exact Hv|].
    split; [exact Hw|]. apply Hm. simpl. lia.
Defined.
